(** * Huvitz Excelon frame-scan capture: the OMA codec and the frame processor

    A shallow embedding of [src/oma_generator.py] and [src/frame_processor.py]
    and the properties of the binary container, the radial profile and the
    measurement extraction that follow from the code.

    Conventions.
    - A Python [bytes] object is a [list byte]; a Python [int] is a [Z]; a
      Python [str] is the list of its code points.
    - An exception is a value of [Py.exn]; a function that may raise returns a
      [Py.result].
    - [struct.pack]/[struct.unpack] are embedded for the five formats the
      source uses, little-endian, with [struct.error] on a value out of range
      or a buffer of the wrong size.
    - [float] values that are only stored (area, perimeter in the container)
      are their IEEE-754 binary64 bit pattern; [float] values that are
      computed with are idealised: exact rationals for what OpenCV returns,
      reals where [math.sin] and [math.cos] are involved. *)

From Stdlib Require Import ZArith List Lia Bool String Ascii.
From Stdlib Require Import Init.Byte.
From Stdlib Require Strings.Byte.
From Stdlib Require Import QArith Qabs.
From Stdlib Require Import Reals Lra.
Import ListNotations.

(* ================================================================== *)
(** * Part I: the model *)
(* ================================================================== *)

(** ** Python values, exceptions and sequences *)

Module Py.

Local Open Scope Z_scope.

(** The exceptions the two modules can raise. *)
Inductive exn : Type :=
| ValueError (msg : string)
| struct_error
| UnicodeDecodeError
| UnicodeEncodeError
| ZeroDivisionError.

Inductive result (A : Type) : Type :=
| Ok (a : A)
| Raise (e : exn).
Arguments Ok {A} a.
Arguments Raise {A} e.

Definition bind {A B : Type} (c : result A) (k : A -> result B) : result B :=
  match c with
  | Ok a => k a
  | Raise e => Raise e
  end.

Definition bytes := list byte.
Definition str := list Z.

(** [len(x)]. *)
Definition len {A : Type} (l : list A) : Z := Z.of_nat (List.length l).

(** The first [n] items, all of them when [n] exceeds the length. *)
Fixpoint take {A : Type} (n : Z) (l : list A) : list A :=
  match l with
  | [] => []
  | x :: t => if n <=? 0 then [] else x :: take (n - 1) t
  end.

(** What is left after the first [n] items. *)
Fixpoint drop {A : Type} (n : Z) (l : list A) : list A :=
  match l with
  | [] => []
  | x :: t => if n <=? 0 then l else drop (n - 1) t
  end.

(** [l[a:b]] for non-negative [a] and [b]: both ends are clipped to the
    sequence, never an error. *)
Definition slice {A : Type} (l : list A) (a b : Z) : list A :=
  take (b - a) (drop a l).

(** [d.get(key, default)]. *)
Definition get {A : Type} (o : option A) (default : A) : A :=
  match o with
  | Some a => a
  | None => default
  end.

(** A [str] literal. *)
Definition str_of_string (s : string) : str :=
  map (fun a => Z.of_N (N_of_ascii a)) (list_ascii_of_string s).

End Py.

Declare Scope py_scope.
Delimit Scope py_scope with py.
Notation "x <- c ;; k" := (Py.bind c (fun x => k))
(at level 61, c at next level, right associativity) : py_scope.

(** ** The [struct] module, little-endian standard sizes *)

Module Struct.

Import Py.
Local Open Scope Z_scope.
Local Open Scope py_scope.

Definition Z_of_byte (b : byte) : Z := Z.of_N (Strings.Byte.to_N b).

Definition byte_of_Z (z : Z) : byte :=
  match Strings.Byte.of_N (Z.to_N (z mod 256)) with
  | Some b => b
  | None => x00
  end.

(** The [n] low bytes of [v], least significant first. *)
Fixpoint le_bytes (n : nat) (v : Z) : bytes :=
  match n with
  | O => []
  | S k => byte_of_Z (v mod 256) :: le_bytes k (v / 256)
  end.

(** The unsigned integer a little-endian byte string denotes. *)
Fixpoint le_int (bs : bytes) : Z :=
  match bs with
  | [] => 0
  | b :: t => Z_of_byte b + 256 * le_int t
  end.

(** An unsigned field of [size] bytes: [struct.error] unless
    [0 <= v < 2^(8*size)]. *)
Definition pack_uint (size : nat) (v : Z) : result bytes :=
  if (0 <=? v) && (v <? 2 ^ (8 * Z.of_nat size))
  then Ok (le_bytes size v)
  else Raise struct_error.

(** [struct.unpack] demands a buffer of exactly the size of the format. *)
Definition unpack_uint (size : nat) (buf : bytes) : result Z :=
  if len buf =? Z.of_nat size then Ok (le_int buf) else Raise struct_error.

(** ['<I'] *)
Definition pack_I (v : Z) : result bytes := pack_uint 4 v.
Definition unpack_I (buf : bytes) : result Z := unpack_uint 4 buf.

(** ['<H'] *)
Definition pack_H (v : Z) : result bytes := pack_uint 2 v.

(** ['<4s'] with a four-byte argument. *)
Definition pack_4s (s : bytes) : bytes := take 4 s.
Definition unpack_4s (buf : bytes) : result bytes :=
  if len buf =? 4 then Ok buf else Raise struct_error.

(** ['<4I'] *)
Definition pack_4I (a b c d : Z) : result bytes :=
  ba <- pack_I a ;;
  bb <- pack_I b ;;
  bc <- pack_I c ;;
  bd <- pack_I d ;;
  Ok (ba ++ bb ++ bc ++ bd).

Definition unpack_4I (buf : bytes) : result (Z * Z * Z * Z) :=
  if len buf =? 16
  then Ok (le_int (slice buf 0 4), le_int (slice buf 4 8),
           le_int (slice buf 8 12), le_int (slice buf 12 16))
  else Raise struct_error.

(** A Python [float] held in a record: its binary64 bit pattern,
    [0 <= bits < 2^64]. *)
Inductive float64 : Type := F64 (bits : Z).

Definition float64_bits (x : float64) : Z := let 'F64 b := x in b.

Definition float64_ok (x : float64) : Prop := 0 <= float64_bits x < 2 ^ 64.

(** The integer [0] given where a double is expected is converted to
    [0.0], whose bit pattern is zero. *)
Definition float64_zero : float64 := F64 0.

(** ['<2d']: the eight bytes of each double, least significant first. *)
Definition pack_2d (x y : float64) : bytes :=
  le_bytes 8 (float64_bits x) ++ le_bytes 8 (float64_bits y).

Definition unpack_2d (buf : bytes) : result (float64 * float64) :=
  if len buf =? 16
  then Ok (F64 (le_int (slice buf 0 8)), F64 (le_int (slice buf 8 16)))
  else Raise struct_error.

(** [f'<{n}H'] packed from [n] arguments. *)
Fixpoint pack_nH (vs : list Z) : result bytes :=
  match vs with
  | [] => Ok []
  | v :: t =>
      bv <- pack_H v ;;
      bt <- pack_nH t ;;
      Ok (bv ++ bt)
  end.

Fixpoint le_int16s (buf : bytes) : list Z :=
  match buf with
  | b0 :: b1 :: t => le_int [b0; b1] :: le_int16s t
  | _ => []
  end.

Definition unpack_nH (n : Z) (buf : bytes) : result (list Z) :=
  if len buf =? 2 * n then Ok (le_int16s buf) else Raise struct_error.

End Struct.

(** ** [str.encode('utf-8')] and [bytes.decode('utf-8')], both strict *)

Module Utf8.

Import Py Struct.
Local Open Scope Z_scope.
Local Open Scope py_scope.

(** A code point that UTF-8 can carry: a Unicode scalar value. *)
Definition scalar (c : Z) : Prop :=
  0 <= c < 0xD800 \/ 0xE000 <= c <= 0x10FFFF.

Definition encode_char (c : Z) : result bytes :=
  if c <? 0 then Raise UnicodeEncodeError
  else if c <? 0x80 then Ok [byte_of_Z c]
  else if c <? 0x800 then
    Ok [byte_of_Z (0xC0 + c / 64); byte_of_Z (0x80 + c mod 64)]
  else if c <? 0x10000 then
    if (0xD800 <=? c) && (c <=? 0xDFFF) then Raise UnicodeEncodeError
    else Ok [byte_of_Z (0xE0 + c / 4096);
             byte_of_Z (0x80 + (c / 64) mod 64);
             byte_of_Z (0x80 + c mod 64)]
  else if c <? 0x110000 then
    Ok [byte_of_Z (0xF0 + c / 262144);
        byte_of_Z (0x80 + (c / 4096) mod 64);
        byte_of_Z (0x80 + (c / 64) mod 64);
        byte_of_Z (0x80 + c mod 64)]
  else Raise UnicodeEncodeError.

Fixpoint encode (s : str) : result bytes :=
  match s with
  | [] => Ok []
  | c :: t =>
      bc <- encode_char c ;;
      bt <- encode t ;;
      Ok (bc ++ bt)
  end.

(** A continuation byte, [10xxxxxx]. *)
Definition cont (b : byte) : bool :=
  (0x80 <=? Z_of_byte b) && (Z_of_byte b <=? 0xBF).

Definition payload (b : byte) : Z := Z_of_byte b - 0x80.

Fixpoint decode (bs : bytes) : result str :=
  match bs with
  | [] => Ok []
  | b0 :: r0 =>
      let x0 := Z_of_byte b0 in
      if x0 <? 0x80 then
        rest <- decode r0 ;; Ok (x0 :: rest)
      else if x0 <? 0xC2 then Raise UnicodeDecodeError
      else if x0 <? 0xE0 then
        match r0 with
        | b1 :: r1 =>
            if cont b1 then
              rest <- decode r1 ;;
              Ok ((x0 - 0xC0) * 64 + payload b1 :: rest)
            else Raise UnicodeDecodeError
        | _ => Raise UnicodeDecodeError
        end
      else if x0 <? 0xF0 then
        match r0 with
        | b1 :: b2 :: r2 =>
            let c := (x0 - 0xE0) * 4096 + payload b1 * 64 + payload b2 in
            if cont b1 && cont b2 && (0x800 <=? c)
               && negb ((0xD800 <=? c) && (c <=? 0xDFFF)) then
              rest <- decode r2 ;; Ok (c :: rest)
            else Raise UnicodeDecodeError
        | _ => Raise UnicodeDecodeError
        end
      else if x0 <? 0xF5 then
        match r0 with
        | b1 :: b2 :: b3 :: r3 =>
            let c := (x0 - 0xF0) * 262144 + payload b1 * 4096
                     + payload b2 * 64 + payload b3 in
            if cont b1 && cont b2 && cont b3
               && (0x10000 <=? c) && (c <=? 0x10FFFF) then
              rest <- decode r3 ;; Ok (c :: rest)
            else Raise UnicodeDecodeError
        | _ => Raise UnicodeDecodeError
        end
      else Raise UnicodeDecodeError
  end.

End Utf8.

(** ** The dictionaries passed between the two classes *)

Module Data.

(** The [measurements] dictionary: every key may be missing.  [F] is the
    representation of [float]. *)
Record Measurements (F : Type) : Type := mkMeasurements {
  width : option Z;
  height : option Z;
  area : option F;
  center : option (Z * Z);
  perimeter : option F
}.
Arguments mkMeasurements {F}.
Arguments width {F}.
Arguments height {F}.
Arguments area {F}.
Arguments center {F}.
Arguments perimeter {F}.

(** The empty dictionary [{}]. *)
Definition no_measurements {F : Type} : Measurements F :=
  mkMeasurements None None None None None.

End Data.

(** ** [oma_generator.py]: class [OMAGenerator] *)

Module OMAGenerator.

Import Py Struct Data.
Local Open Scope Z_scope.
Local Open Scope py_scope.

(** The keys of [scan_data] that the generator reads; each may be missing. *)
Record ScanData : Type := mkScanData {
  timestamp : option str;
  measurements : option (Measurements float64);
  radii : option (list Z)
}.

(** The dictionary [_parse_oma_content] returns. *)
Record OMAContent : Type := mkOMAContent {
  oma_version : Z;
  oma_timestamp : str;
  oma_device_info : str;
  oma_measurements : Measurements float64;
  oma_radii : list Z
}.

(** [b'OMAF'] *)
Definition magic : bytes := [x4f; x4d; x41; x46].

Definition device_info : str := str_of_string "Huvitz Excelon Frame Scanner".

(** [now] is what [datetime.now().isoformat()] returns at the call. *)
Definition _create_header (now : str) (scan_data : ScanData) : result bytes :=
  let header := pack_4s magic in
  version <- pack_I 1 ;;
  num <- pack_I (len (get (radii scan_data) [])) ;;
  let timestamp := get (timestamp scan_data) now in
  timestamp_bytes <- Utf8.encode timestamp ;;
  timestamp_len <- pack_I (len timestamp_bytes) ;;
  device_bytes <- Utf8.encode device_info ;;
  device_len <- pack_I (len device_bytes) ;;
  Ok (header ++ version ++ num ++ timestamp_len ++ timestamp_bytes
        ++ device_len ++ device_bytes).

Definition _create_frame_data (scan_data : ScanData) : result bytes :=
  let measurements := get (measurements scan_data) no_measurements in
  let width := get (width measurements) 0 in
  let height := get (height measurements) 0 in
  let area := get (area measurements) float64_zero in
  let perimeter := get (perimeter measurements) float64_zero in
  let center := get (center measurements) (0, 0) in
  let '(center_x, center_y) := center in
  frame_data <- pack_4I width height center_x center_y ;;
  Ok (frame_data ++ pack_2d area perimeter).

Definition _create_radius_data (scan_data : ScanData) : result bytes :=
  let radii := get (radii scan_data) [] in
  match radii with
  | [] => Ok []
  | _ => pack_nH radii
  end.

Definition _build_oma_content (now : str) (scan_data : ScanData)
  : result bytes :=
  header <- _create_header now scan_data ;;
  frame_data <- _create_frame_data scan_data ;;
  radius_data <- _create_radius_data scan_data ;;
  Ok (header ++ frame_data ++ radius_data).

Definition invalid_format : exn := ValueError "Invalid OMa file format".

Definition _parse_oma_content (content : bytes) : result OMAContent :=
  let offset := 0 in
  magic' <- unpack_4s (slice content offset (offset + 4)) ;;
  let offset := offset + 4 in
  if negb (if list_eq_dec Strings.Byte.byte_eq_dec magic' magic
           then true else false)
  then Raise invalid_format
  else
  version <- unpack_I (slice content offset (offset + 4)) ;;
  let offset := offset + 4 in
  num_radii <- unpack_I (slice content offset (offset + 4)) ;;
  let offset := offset + 4 in
  timestamp_len <- unpack_I (slice content offset (offset + 4)) ;;
  let offset := offset + 4 in
  timestamp <- Utf8.decode (slice content offset (offset + timestamp_len)) ;;
  let offset := offset + timestamp_len in
  device_len <- unpack_I (slice content offset (offset + 4)) ;;
  let offset := offset + 4 in
  device_info <- Utf8.decode (slice content offset (offset + device_len)) ;;
  let offset := offset + device_len in
  whcc <- unpack_4I (slice content offset (offset + 16)) ;;
  let '(width, height, center_x, center_y) := whcc in
  let offset := offset + 16 in
  ap <- unpack_2d (slice content offset (offset + 16)) ;;
  let '(area, perimeter) := ap in
  let offset := offset + 16 in
  radii <- unpack_nH num_radii
             (slice content offset (offset + num_radii * 2)) ;;
  Ok (mkOMAContent version timestamp device_info
        (mkMeasurements (Some width) (Some height) (Some area)
           (Some (center_x, center_y)) (Some perimeter))
        radii).

(** [create_oma_file]: the content written to [filename], or [None] when
    building it raised or when the file could not be written; either
    exception is caught and reported.  [writable] tells whether [open] and
    [write] succeed on [filename]. *)
Definition create_oma_file (writable : bool) (now : str)
    (scan_data : ScanData) : option bytes :=
  match _build_oma_content now scan_data with
  | Ok oma_content => if writable then Some oma_content else None
  | Raise _ => None
  end.

(** [read_oma_file]: [file] is the content of [filename], [None] when it
    cannot be read; every exception is caught and [None] returned. *)
Definition read_oma_file (file : option bytes) : option OMAContent :=
  match file with
  | Some content =>
      match _parse_oma_content content with
      | Ok d => Some d
      | Raise _ => None
      end
  | None => None
  end.

End OMAGenerator.

(** ** [frame_processor.py]: class [FrameProcessor] *)

Module FrameProcessor.

Import Py Data.
Local Open Scope Z_scope.
Local Open Scope py_scope.

(** A contour is an array of integer points. *)
Definition Contour : Type := list (Z * Z).

Inductive MorphOp : Type := MORPH_CLOSE | MORPH_OPEN.

(** The entries of [cv2.moments] that the module reads. *)
Record Moments : Type := mkMoments { m00 : Q; m10 : Q; m01 : Q }.

(** The OpenCV calls of the module, with the arguments the source passes.
    Their results are whatever OpenCV computes: the module is verified
    against this interface. *)
Class OpenCV : Type := {
  Image : Type;
  Shape : Type;
  shape : Image -> Shape;
  cvtColor_BGR2GRAY : Image -> Image;
  GaussianBlur : Image -> Z * Z -> Z -> Image;
  adaptiveThreshold_GAUSSIAN_BINARY : Image -> Z -> Z -> Z -> Image;
  morphologyEx : Image -> MorphOp -> Z * Z -> Image;
  findContours_EXTERNAL_SIMPLE : Image -> list Contour;
  contourArea : Contour -> Q;
  arcLength : Contour -> bool -> Q;
  approxPolyDP : Contour -> Q -> bool -> Contour;
  boundingRect : Contour -> Z * Z * Z * Z;
  moments : Contour -> Moments
}.

(** [x / y] on floats. *)
Definition truediv (x y : Q) : result Q :=
  if Qeq_bool y 0 then Raise ZeroDivisionError else Ok (x / y)%Q.

(** [int(x)] on a float: truncation toward zero. *)
Definition int_of_float (x : Q) : Z := Z.quot (Qnum x) (Zpos (Qden x)).

(** [x > y] on floats. *)
Definition gt (x y : Q) : bool := negb (Qle_bool x y).

(** [max(key=...)] of a non-empty list: the first item of maximal key. *)
Definition max_key {A : Type} (key : A -> Q) (x : A) (xs : list A) : A :=
  fold_left (fun best c => if gt (key c) (key best) then c else best) xs x.

(** [range(n)] *)
Definition range (n : nat) : list Z := map Z.of_nat (seq 0 n).

(** [max(a, b)] and [min(a, b)] of two numbers: the first argument unless the
    second is strictly beyond it. *)
Definition py_max (a b : R) : R := if Rlt_dec a b then b else a.
Definition py_min (a b : R) : R := if Rlt_dec b a then b else a.

(** [int(x)] on a real: truncation toward zero. *)
Definition int_of_real (x : R) : Z :=
  if Rle_dec 0 x then Int_part x else (- Int_part (- x))%Z.

(** One pass of the loop body of [_generate_radii_data]. *)
Definition angle (i : Z) : R := (IZR i / 1000 * 2 * PI)%R.

Definition variation (i : Z) : R :=
  (100 * sin (angle i * 2) + 50 * cos (angle i * 3))%R.

Definition base_radius : R := 1550%R.

Definition radius (i : Z) : R :=
  py_max 1500 (py_min 2700 (base_radius + variation i)).

Definition _generate_radii_data (measurements : Measurements Q) : list Z :=
  match measurements with
  | mkMeasurements None None None None None => []
  | _ =>
      match center measurements with
      | None => []
      | Some _ =>
          fold_left (fun radii i => radii ++ [int_of_real (radius i)])
            (range 1000) []
      end
  end.

Section Methods.

Context `{cv : OpenCV}.

(** The dictionary [extract_scan_data] returns. *)
Record ScanData : Type := mkScanData {
  timestamp : str;
  measurements : Measurements Q;
  radii : list Z;
  contours : list Contour;
  frame_shape : Shape
}.

(** The attributes of a [FrameProcessor]. *)
Record State : Type := mkState {
  last_processed_frame : option Image;
  scan_contours : list Contour;
  frame_measurements : Measurements Q
}.

Definition __init__ : State := mkState None [] no_measurements.

Definition _preprocess_frame (gray_frame : Image) : Image :=
  let blurred := GaussianBlur gray_frame (5, 5) 0 in
  let thresh := adaptiveThreshold_GAUSSIAN_BINARY blurred 255 11 2 in
  let kernel := (3, 3) in
  let processed := morphologyEx thresh MORPH_CLOSE kernel in
  let processed := morphologyEx processed MORPH_OPEN kernel in
  processed.

(** The acceptance test of the filter loop. *)
Definition accepted (contour : Contour) : bool :=
  let area := contourArea contour in
  if gt area 1000 then
    let epsilon := (0.02 * arcLength contour true)%Q in
    let approx := approxPolyDP contour epsilon true in
    (len approx >=? 4) && (len approx <=? 8)
  else false.

Definition _detect_frame_contours (processed_frame : Image) : list Contour :=
  let contours := findContours_EXTERNAL_SIMPLE processed_frame in
  fold_left
    (fun valid_contours contour =>
       if accepted contour then valid_contours ++ [contour]
       else valid_contours)
    contours [].

(** A non-empty list is true. *)
Definition truthy {A : Type} (l : list A) : bool :=
  match l with
  | [] => false
  | _ => true
  end.

Definition process_frame (self : State) (frame : option Image)
  : bool * State :=
  match frame with
  | None => (false, self)
  | Some frame =>
      let gray := cvtColor_BGR2GRAY frame in
      let processed := _preprocess_frame gray in
      let contours := _detect_frame_contours processed in
      if truthy contours then
        (true, mkState (Some frame) contours (frame_measurements self))
      else (false, self)
  end.

(** The argument [frame] is not read: the contours are those kept in
    [self]. *)
Definition _extract_measurements (self : State) (frame : Image)
  : result (Measurements Q) :=
  let measurements := no_measurements in
  match scan_contours self with
  | [] => Ok measurements
  | c :: cs =>
      let main_contour := max_key contourArea c cs in
      let '(x, y, w, h) := boundingRect main_contour in
      let measurements :=
        mkMeasurements (Some w) (Some h) (Some (contourArea main_contour))
          (center measurements) (perimeter measurements) in
      let M := moments main_contour in
      measurements <-
        (if negb (Qeq_bool (m00 M) 0) then
           qx <- truediv (m10 M) (m00 M) ;;
           let cx := int_of_float qx in
           qy <- truediv (m01 M) (m00 M) ;;
           let cy := int_of_float qy in
           Ok (mkMeasurements (width measurements) (height measurements)
                 (area measurements) (Some (cx, cy))
                 (perimeter measurements))
         else Ok measurements) ;;
      Ok (mkMeasurements (width measurements) (height measurements)
            (area measurements) (center measurements)
            (Some (arcLength main_contour true)))
  end.

(** [now] is what [_get_timestamp] reads from the clock.  The result is the
    returned value, or the exception raised, with the processor afterwards. *)
Definition extract_scan_data (self : State) (now : str)
    (frame : option Image) : result (option ScanData) * State :=
  match frame with
  | None => (Ok None, self)
  | Some frame' =>
      let '(found, self) := process_frame self frame in
      if negb found then (Ok None, self)
      else
        (measurements <- _extract_measurements self frame' ;;
         let radii_data := _generate_radii_data measurements in
         Ok (Some (mkScanData now measurements radii_data
                     (scan_contours self) (shape frame'))),
         self)
  end.

End Methods.

End FrameProcessor.

(** ** Vocabulary of the properties *)

Module Spec.

Import Py Struct Data OMAGenerator.
Local Open Scope Z_scope.

Definition u16 (v : Z) : Prop := 0 <= v < 2 ^ 16.
Definition u32 (v : Z) : Prop := 0 <= v < 2 ^ 32.

(** A text the container can carry: scalar values only, and short enough
    for its UTF-8 length to fit the 32-bit length field whatever the code
    points are. *)
Definition text_ok (s : str) : Prop :=
  Forall Utf8.scalar s /\ len s < 2 ^ 30.

(** What the generator writes for [scan_data], key by key, with the
    defaults of the [get] calls. *)
Definition written_timestamp (now : str) (sd : ScanData) : str :=
  get (timestamp sd) now.

Definition written_measurements (sd : ScanData) : Measurements float64 :=
  let m := get (measurements sd) no_measurements in
  mkMeasurements
    (Some (get (width m) 0)) (Some (get (height m) 0))
    (Some (get (area m) float64_zero))
    (Some (get (center m) (0, 0)))
    (Some (get (perimeter m) float64_zero)).

Definition written_radii (sd : ScanData) : list Z := get (radii sd) [].

(** The values are within the range of their field. *)
Definition measurements_ok (m : Measurements float64) : Prop :=
  u32 (get (width m) 0) /\ u32 (get (height m) 0) /\
  u32 (fst (get (center m) (0, 0))) /\ u32 (snd (get (center m) (0, 0))) /\
  float64_ok (get (area m) float64_zero) /\
  float64_ok (get (perimeter m) float64_zero).

(** The two tagged decoding failures of the specification. *)
Inductive DecodeError : Type := FormatError | TruncatedDataError.

(** The tag an exception of [_parse_oma_content] carries, if any: the module
    raises one exception of its own, for a wrong magic marker; the others come
    from [struct] and from the UTF-8 decoder. *)
Definition error_tag (e : exn) : option DecodeError :=
  match e with
  | ValueError _ => Some FormatError
  | _ => None
  end.

(** The declared fields of a buffer. *)
Definition u32_at (content : bytes) (offset : Z) : Z :=
  le_int (slice content offset (offset + 4)).

Definition declared_num_radii (content : bytes) : Z := u32_at content 8.
Definition declared_timestamp_len (content : bytes) : Z := u32_at content 12.
Definition declared_device_len (content : bytes) : Z :=
  u32_at content (16 + declared_timestamp_len content).

(** A declared length (timestamp length, device length or radius count)
    implies reading past the end of [content]: the sections that the header
    announces, with the fixed fields between them, end after the last byte.
    The length fields are read where the parser reads them, a slice that
    reaches past the end being clipped; the buffer may stop anywhere, in an
    announced section, in the measurements or in a length field. *)
Definition reads_past_end (content : bytes) : Prop :=
  len content
  < 52 + declared_timestamp_len content + declared_device_len content
    + 2 * declared_num_radii content.

(** [z] is [q] with its fraction dropped: the integer next to [q] on the
    side of zero. *)
Definition integer_part (q : Q) (z : Z) : Prop :=
  ((0 <= q)%Q -> (inject_Z z <= q)%Q /\ (q < inject_Z z + 1)%Q) /\
  ((q <= 0)%Q -> (inject_Z z - 1 < q)%Q /\ (q <= inject_Z z)%Q).

(** Every key that the generator reads is present. *)
Definition complete (sd : ScanData) : Prop :=
  exists ts w h a c p rs,
    sd = mkScanData (Some ts)
           (Some (mkMeasurements (Some w) (Some h) (Some a) (Some c)
                    (Some p)))
           (Some rs).

(** Decoding [content] fails with the tagged error [TruncatedDataError]
    whenever a declared length reads past the end. *)
Definition truncation_tagged (content : bytes) : Prop :=
  reads_past_end content ->
  exists e, _parse_oma_content content = Raise e /\
            error_tag e = Some TruncatedDataError.

(** The profile of the specification: sample [i] is taken at the angle
    [2*pi*i/1000] on the clamped curve. *)
Definition theta (i : Z) : R := (2 * PI * IZR i / 1000)%R.

Definition clamp (x lo hi : R) : R := Rmax lo (Rmin x hi).

Definition curve (t : R) : R :=
  clamp (1550 + 100 * sin (2 * t) + 50 * cos (3 * t)) 1500 2700.

(** [z] is an integer nearest to [x]. *)
Definition nearest (x : R) (z : Z) : Prop := (Rabs (x - IZR z) <= 1 / 2)%R.

(** [z] is [x] with its fraction dropped, for [x >= 0]. *)
Definition truncated (x : R) (z : Z) : Prop := (IZR z <= x < IZR z + 1)%R.

(** A profile of 1000 samples, each related by [quantize] to the curve at
    its angle. *)
Definition samples_curve (quantize : R -> Z -> Prop) (profile : list Z)
  : Prop :=
  len profile = 1000 /\
  forall i, 0 <= i < 1000 ->
    quantize (curve (theta i)) (nth (Z.to_nat i) profile 0).

(** Two processors in different states behave alike on [frame], and
    processing it leaves no trace. *)
Definition state_free `{FrameProcessor.OpenCV}
    (self1 self2 : FrameProcessor.State) (frame : FrameProcessor.Image)
  : Prop :=
  snd (FrameProcessor.process_frame self1 (Some frame)) = self1 /\
  FrameProcessor._extract_measurements self1 frame
  = FrameProcessor._extract_measurements self2 frame.

End Spec.

(** ** Sample data *)

Module Samples.

Import Py Struct Data OMAGenerator.
Local Open Scope Z_scope.

(** A complete record: the measurements of [create_sample_oma] and a short
    profile.  [79152.0] is [0x40F3530000000000], [3206.0] is
    [0x40A90C0000000000]. *)
Definition sample_scan : ScanData :=
  mkScanData
    (Some (str_of_string "2024-05-17T10:31:07.250113"))
    (Some (mkMeasurements (Some 1552) (Some 51)
             (Some (F64 0x40F3530000000000)) (Some (776, 25))
             (Some (F64 0x40A90C0000000000))))
    (Some [2354; 2359; 2365; 2370]).

(** The same capture when the centroid could not be computed. *)
Definition sample_scan_no_center : ScanData :=
  mkScanData
    (Some (str_of_string "2024-05-17T10:31:07.250113"))
    (Some (mkMeasurements (Some 1552) (Some 51)
             (Some (F64 0x40F3530000000000)) None
             (Some (F64 0x40A90C0000000000))))
    (Some []).

(** The file written for [sample_scan]. *)
Definition sample_content : bytes :=
  Eval vm_compute in
    match _build_oma_content [] sample_scan with
    | Ok content => content
    | Raise _ => []
    end.

(** The same file with its last radius cut off: the header still announces
    four radii and the radius section holds three. *)
Definition truncated_content : bytes :=
  Eval vm_compute in take (len sample_content - 2) sample_content.

(** The same file cut to 90 bytes, in the middle of its measurements: every
    length field is there, and the radii it announces would end at byte
    114. *)
Definition cut_content : bytes :=
  Eval vm_compute in take 90 sample_content.

(** What the file is parsed to. *)
Definition sample_record : OMAContent :=
  mkOMAContent 1 (str_of_string "2024-05-17T10:31:07.250113") device_info
    (mkMeasurements (Some 1552) (Some 51)
       (Some (F64 0x40F3530000000000)) (Some (776, 25))
       (Some (F64 0x40A90C0000000000)))
    [2354; 2359; 2365; 2370].

(** A file of another format. *)
Definition png_content : bytes :=
  [x89; x50; x4e; x47; x0d; x0a; x1a; x0a].

(** A stand-in for OpenCV on which the frame processor can be run: an
    image is given by the outlines drawn on it, the filters leave it as it
    is, and an outline is its own polygon.  Area and moments are those of
    the polygon (Green's formula); the length is the rectilinear one, which
    is the length of the axis-parallel outlines used here. *)
Import FrameProcessor.

Fixpoint edges (first : Z * Z) (c : Contour) : list ((Z * Z) * (Z * Z)) :=
  match c with
  | [] => []
  | [p] => [(p, first)]
  | p :: (q :: _) as t => (p, q) :: edges first t
  end.

Definition closed_edges (c : Contour) : list ((Z * Z) * (Z * Z)) :=
  match c with
  | [] => []
  | p :: _ => edges p c
  end.

Definition cross (e : (Z * Z) * (Z * Z)) : Z :=
  let '((x0, y0), (x1, y1)) := e in x0 * y1 - x1 * y0.

Definition sum (l : list Z) : Z := fold_right Z.add 0 l.

Definition polygon_moments (c : Contour) : Moments :=
  let es := closed_edges c in
  mkMoments
    (Qmake (sum (map cross es)) 2)
    (Qmake (sum (map (fun e => cross e * (fst (fst e) + fst (snd e))) es)) 6)
    (Qmake (sum (map (fun e => cross e * (snd (fst e) + snd (snd e))) es)) 6).

Definition polygon_length (c : Contour) : Q :=
  inject_Z
    (sum (map (fun e => Z.abs (fst (snd e) - fst (fst e))
                        + Z.abs (snd (snd e) - snd (fst e)))
            (closed_edges c))).

Definition minimum (l : list Z) : Z :=
  match l with
  | [] => 0
  | x :: t => fold_left Z.min t x
  end.

Definition maximum (l : list Z) : Z :=
  match l with
  | [] => 0
  | x :: t => fold_left Z.max t x
  end.

Definition polygon_box (c : Contour) : Z * Z * Z * Z :=
  let xs := map fst c in
  let ys := map snd c in
  (minimum xs, minimum ys,
   maximum xs - minimum xs + 1, maximum ys - minimum ys + 1).

Definition drawing : OpenCV := {|
  Image := list Contour;
  Shape := Z * Z * Z;
  shape := fun _ => (1080, 1920, 3);
  cvtColor_BGR2GRAY := fun img => img;
  GaussianBlur := fun img _ _ => img;
  adaptiveThreshold_GAUSSIAN_BINARY := fun img _ _ _ => img;
  morphologyEx := fun img _ _ => img;
  findContours_EXTERNAL_SIMPLE := fun img => img;
  contourArea := fun c => Qabs (m00 (polygon_moments c));
  arcLength := fun c _ => polygon_length c;
  approxPolyDP := fun c _ _ => c;
  boundingRect := polygon_box;
  moments := polygon_moments
|}.

(** A frame outline of 1552 by 51 pixels, a speck of 10 by 10 pixels, and a
    scratch without area. *)
Definition outline : Contour :=
  [(100, 200); (1651, 200); (1651, 250); (100, 250)].
Definition speck : Contour := [(5, 5); (14, 5); (14, 14); (5, 14)].
Definition scratch : Contour := [(0, 0); (40, 0)].

Definition frame_with_outline : list Contour := [speck; outline].
Definition frame_with_speck : list Contour := [speck].

(** The processor after it has seen [frame_with_outline]. *)
Definition seen_outline : State (cv := drawing) :=
  mkState (cv := drawing) (Some frame_with_outline) [outline] no_measurements.

(** A processor whose kept contour has no area. *)
Definition seen_scratch : State (cv := drawing) :=
  mkState (cv := drawing) None [scratch] no_measurements.

(** What the processor measures on [outline]. *)
Definition measured : Measurements Q :=
  mkMeasurements (Some 1552) (Some 51) (Some (Qmake 155100 2))
    (Some (875, 225)) (Some (inject_Z 3202)).

End Samples.

(** ** Vocabulary of the container's further properties *)

Module Layout.

Import Py Struct Data OMAGenerator Spec.
Local Open Scope Z_scope.

(** The number of bytes UTF-8 takes for a code point and for a text. *)
Definition char_len (c : Z) : Z :=
  if c <? 0x80 then 1
  else if c <? 0x800 then 2
  else if c <? 0x10000 then 3
  else 4.

Definition utf8_len (s : str) : Z := fold_right (fun c n => char_len c + n) 0 s.

(** Every value the generator packs for [scan_data] fits its field. *)
Definition fits (now : str) (sd : ScanData) : Prop :=
  let m := get (measurements sd) no_measurements in
  Forall Utf8.scalar (written_timestamp now sd) /\
  u32 (utf8_len (written_timestamp now sd)) /\
  u32 (get (width m) 0) /\ u32 (get (height m) 0) /\
  u32 (fst (get (center m) (0, 0))) /\ u32 (snd (get (center m) (0, 0))) /\
  u32 (len (written_radii sd)) /\
  Forall u16 (written_radii sd).

(** The doubles of [scan_data] are bit patterns of 64 bits. *)
Definition floats_ok (sd : ScanData) : Prop :=
  let m := get (measurements sd) no_measurements in
  float64_ok (get (area m) float64_zero) /\
  float64_ok (get (perimeter m) float64_zero).

(** The size of the file that the header of [content] declares. *)
Definition declared_size (content : bytes) : Z :=
  52 + declared_timestamp_len content + declared_device_len content
  + 2 * declared_num_radii content.

(** The dictionary read from a file, passed to the generator: it has the
    three keys the generator reads. *)
Definition scan_of_content (d : OMAContent) : ScanData :=
  mkScanData (Some (oma_timestamp d)) (Some (oma_measurements d))
    (Some (oma_radii d)).

(** The bytes of a file, field after field: marker, version, radius count,
    timestamp and device each after its length, measurements, radii. *)
Definition image_of (version : Z) (tb db rb : bytes) (n : Z)
    (w h cx cy : Z) (a p : float64) : bytes :=
  (magic ++ le_bytes 4 version ++ le_bytes 4 n ++ le_bytes 4 (len tb) ++ tb
     ++ le_bytes 4 (len db) ++ db)
  ++ ((le_bytes 4 w ++ le_bytes 4 h ++ le_bytes 4 cx ++ le_bytes 4 cy)
        ++ pack_2d a p)
  ++ rb.

End Layout.

(** ** Sequences of calls on a frame processor *)

Module Sessions.

Import Py Data FrameProcessor.

Section Calls.

Context `{cv : OpenCV}.

(** The two public methods that change a processor. *)
Inductive Call : Type :=
| ProcessFrame (frame : option Image)
| ExtractScanData (now : str) (frame : option Image).

(** The processor after one call. *)
Definition call (self : State) (c : Call) : State :=
  match c with
  | ProcessFrame frame => snd (process_frame self frame)
  | ExtractScanData now frame => snd (extract_scan_data self now frame)
  end.

(** The processor after a sequence of calls on a new one. *)
Definition after (calls : list Call) : State := fold_left call calls __init__.

(** The contours [process_frame] detects in a frame. *)
Definition detected (frame : Image) : list Contour :=
  _detect_frame_contours (_preprocess_frame (cvtColor_BGR2GRAY frame)).

(** The frame a call is made with. *)
Definition call_frame (c : Call) : option Image :=
  match c with
  | ProcessFrame frame => frame
  | ExtractScanData _ frame => frame
  end.

(** What holds of a processor whatever it was called with: nothing is
    written to [frame_measurements], every kept contour passed the
    acceptance test, and the kept contours are those detected in
    [last_processed_frame]. *)
Definition consistent (s : State) : Prop :=
  frame_measurements s = no_measurements /\
  Forall (fun c => accepted c = true) (scan_contours s) /\
  match last_processed_frame s with
  | None => scan_contours s = []
  | Some frame => scan_contours s = detected frame /\ scan_contours s <> []
  end.

End Calls.

End Sessions.

(** ** [main.py]: class [HuvitzExcelonCapture] *)

Module Capture.

Import Py Struct Data.
Local Open Scope Z_scope.
Local Open Scope py_scope.

Section App.

Context `{cv : FrameProcessor.OpenCV}.

(** The binary64 bit pattern of a float, the floats of the processor being
    taken as exact rationals. *)
Variable float_bits : Q -> float64.

(** The attributes that the capture methods read and write.  The methods
    are taken one call at a time: the thread that runs [_capture_loop] is
    not interleaved with them. *)
Record App : Type := mkApp {
  current_frame : option FrameProcessor.Image;
  scan_data : option FrameProcessor.ScanData;
  frame_processor : FrameProcessor.State
}.

Definition __init__ : App := mkApp None None FrameProcessor.__init__.

(** One pass of the body of [_capture_loop] in which the camera has
    delivered [frame]. *)
Definition _capture_loop_pass (self : App) (frame : FrameProcessor.Image)
  : App :=
  let '(_, processor) :=
    FrameProcessor.process_frame (frame_processor self) (Some frame) in
  mkApp (Some frame) (scan_data self) processor.

(** [now] is the clock reading of the processor's [_get_timestamp]. *)
Definition capture_scan (self : App) (now : str)
  : result (option FrameProcessor.ScanData) * App :=
  match current_frame self with
  | None => (Ok None, self)
  | Some _ =>
      let '(r, processor) :=
        FrameProcessor.extract_scan_data (frame_processor self) now
          (current_frame self) in
      match r with
      | Ok (Some scan_data) =>
          (Ok (Some scan_data),
           mkApp (current_frame self) (Some scan_data) processor)
      | Ok None =>
          (Ok None, mkApp (current_frame self) (scan_data self) processor)
      | Raise e =>
          (Raise e, mkApp (current_frame self) (scan_data self) processor)
      end
  end.

(** The dictionary of the processor as the generator reads it: the keys
    [timestamp], [measurements] and [radii], the floats as bit patterns. *)
Definition generator_view (sd : FrameProcessor.ScanData)
  : OMAGenerator.ScanData :=
  let m := FrameProcessor.measurements sd in
  OMAGenerator.mkScanData
    (Some (FrameProcessor.timestamp sd))
    (Some (mkMeasurements (width m) (height m)
             (option_map float_bits (area m)) (center m)
             (option_map float_bits (perimeter m))))
    (Some (FrameProcessor.radii sd)).

(** [generate_oma_file]: the content written to the file, [None] when there
    is no scan, the generator failed or the file could not be written.
    [writable] tells whether the file can be written, [now] is the clock
    reading of the generator; the file name does not bear on the content. *)
Definition generate_oma_file (self : App) (writable : bool) (now : str)
  : option bytes :=
  match scan_data self with
  | None => None
  | Some scan_data =>
      OMAGenerator.create_oma_file writable now (generator_view scan_data)
  end.

End App.

End Capture.

(** ** A binary64 encoder for the sample runs *)

Module Binary64.

Import Struct.
Local Open Scope Z_scope.

(** [n / d] rounded to the nearest integer, ties to even, for [d > 0]. *)
Definition round_half_even (n d : Z) : Z :=
  let q := n / d in
  let r := n mod d in
  if 2 * r <? d then q
  else if d <? 2 * r then q + 1
  else if Z.even q then q else q + 1.

(** The bit pattern of the double nearest to [x], for [x] zero or in the
    range of normal numbers. *)
Definition bits (x : Q) : float64 :=
  let n := Qnum x in
  let d := Zpos (Qden x) in
  if n =? 0 then F64 0
  else
    let s := if n <? 0 then 2 ^ 63 else 0 in
    let a := Z.abs n in
    let e0 := Z.log2 a - Z.log2 d in
    let below :=
      if 0 <=? e0 then a <? d * 2 ^ e0 else a * 2 ^ (- e0) <? d in
    let e := if below then e0 - 1 else e0 in
    let m :=
      if e <=? 52 then round_half_even (a * 2 ^ (52 - e)) d
      else round_half_even a (d * 2 ^ (e - 52)) in
    let '(m, e) := if m =? 2 ^ 53 then (2 ^ 52, e + 1) else (m, e) in
    F64 (s + (e + 1023) * 2 ^ 52 + (m - 2 ^ 52)).

End Binary64.

(** ** More sample data *)

Module MoreSamples.

Import Py Struct Data.
Local Open Scope Z_scope.

Definition stamp : str := str_of_string "2024-05-17T10:31:07.250113".

(** A radius that does not fit 16 bits. *)
Definition scan_bad_radius : OMAGenerator.ScanData :=
  OMAGenerator.mkScanData (Some stamp) None (Some [2354; 70000]).

(** No timestamp, no measurements and no radii at all, and the same with
    every default spelled out. *)
Definition scan_empty : OMAGenerator.ScanData :=
  OMAGenerator.mkScanData None None None.

Definition scan_defaults : OMAGenerator.ScanData :=
  OMAGenerator.mkScanData (Some stamp)
    (Some (mkMeasurements (Some 0) (Some 0) (Some float64_zero)
             (Some (0, 0)) (Some float64_zero)))
    (Some []).

(** The file written for both. *)
Definition content_defaults : bytes :=
  Eval vm_compute in
    match OMAGenerator._build_oma_content stamp scan_empty with
    | Ok content => content
    | Raise _ => []
    end.

(** Another measurement with a center. *)
Definition measured_elsewhere : Measurements Q :=
  mkMeasurements (Some 10) (Some 10) (Some (inject_Z 100)) (Some (9, 9))
    (Some (inject_Z 36)).

(** The scan of [Samples.frame_with_outline] taken at [stamp]. *)
Definition captured : FrameProcessor.ScanData (cv := Samples.drawing) :=
  FrameProcessor.mkScanData (cv := Samples.drawing) stamp Samples.measured
    (FrameProcessor._generate_radii_data Samples.measured)
    [Samples.outline] (1080, 1920, 3).

(** The application after the camera has delivered
    [Samples.frame_with_outline], and after the scan was captured. *)
Definition app_with_frame : Capture.App (cv := Samples.drawing) :=
  Capture._capture_loop_pass (cv := Samples.drawing)
    (Capture.__init__ (cv := Samples.drawing)) Samples.frame_with_outline.

Definition app_with_scan : Capture.App (cv := Samples.drawing) :=
  Capture.mkApp (cv := Samples.drawing) (Some Samples.frame_with_outline)
    (Some captured) Samples.seen_outline.

(** The application with a frame in which nothing is detected. *)
Definition app_with_speck : Capture.App (cv := Samples.drawing) :=
  Capture.mkApp (cv := Samples.drawing) (Some Samples.frame_with_speck)
    (Some captured) Samples.seen_outline.

End MoreSamples.

(* ================================================================== *)
(** * Part II: properties *)
(* ================================================================== *)

(** ** Sequences and slices *)

Section SliceFacts.

Import Py.
Local Open Scope Z_scope.

Context {A : Type}.
Implicit Types l pre rest : list A.

Lemma len_nonneg l : 0 <= len l.
Proof. unfold len; lia. Qed.

Lemma len_app l rest : len (l ++ rest) = len l + len rest.
Proof. unfold len; rewrite length_app; lia. Qed.

Lemma len_cons (x : A) l : len (x :: l) = 1 + len l.
Proof. unfold len; simpl List.length; lia. Qed.

Lemma len_nil : len (@nil A) = 0.
Proof. reflexivity. Qed.

Lemma take_firstn l : forall n, take n l = firstn (Z.to_nat n) l.
Proof.
  induction l as [|x t IH]; intros n; simpl.
  - now rewrite firstn_nil.
  - destruct (Z.leb_spec n 0) as [Hn|Hn].
    + replace (Z.to_nat n) with O by lia. reflexivity.
    + replace (Z.to_nat n) with (S (Z.to_nat (n - 1))) by lia.
      simpl. now rewrite IH.
Qed.

Lemma drop_skipn l : forall n, drop n l = skipn (Z.to_nat n) l.
Proof.
  induction l as [|x t IH]; intros n; simpl.
  - now rewrite skipn_nil.
  - destruct (Z.leb_spec n 0) as [Hn|Hn].
    + replace (Z.to_nat n) with O by lia. reflexivity.
    + replace (Z.to_nat n) with (S (Z.to_nat (n - 1))) by lia.
      simpl. now rewrite IH.
Qed.

Lemma len_take l n : len (take n l) = Z.max 0 (Z.min n (len l)).
Proof. unfold len; rewrite take_firstn, length_firstn; lia. Qed.

Lemma len_drop l n : len (drop n l) = Z.max 0 (len l - Z.max 0 n).
Proof. unfold len; rewrite drop_skipn, length_skipn; lia. Qed.

Lemma len_slice l a b :
  len (slice l a b) = Z.max 0 (Z.min (b - a) (Z.max 0 (len l - Z.max 0 a))).
Proof. unfold slice; rewrite len_take, len_drop; lia. Qed.

Lemma take_app_exact l rest n : len l = n -> take n (l ++ rest) = l.
Proof.
  intros H. rewrite take_firstn.
  replace (Z.to_nat n) with (List.length l + 0)%nat by (unfold len in H; lia).
  rewrite firstn_app_2. simpl. apply app_nil_r.
Qed.

Lemma drop_app_exact l rest n : len l = n -> drop n (l ++ rest) = rest.
Proof.
  intros H. rewrite drop_skipn.
  replace (Z.to_nat n) with (List.length l) by (unfold len in H; lia).
  rewrite skipn_app, skipn_all, Nat.sub_diag. reflexivity.
Qed.

Lemma take_all l n : len l <= n -> take n l = l.
Proof.
  intros H. rewrite take_firstn. apply firstn_all2. unfold len in H; lia.
Qed.

(** The field that follows a prefix of known length. *)
Lemma slice_app_mid pre l rest off k :
  len pre = off -> len l = k ->
  slice (pre ++ l ++ rest) off (off + k) = l.
Proof.
  intros Hp Hl. unfold slice.
  rewrite (drop_app_exact _ _ _ Hp).
  replace (off + k - off) with k by lia.
  now apply take_app_exact.
Qed.

(** A slice that ends within [l] does not see what follows [l]. *)
Lemma slice_app_l l rest a b :
  0 <= a -> b <= len l -> slice (l ++ rest) a b = slice l a b.
Proof.
  intros Ha Hb. unfold slice. rewrite !take_firstn, !drop_skipn.
  rewrite skipn_app, firstn_app.
  assert (Hlen := length_skipn (Z.to_nat a) l).
  replace (Z.to_nat (b - a) - List.length (skipn (Z.to_nat a) l))%nat
    with O by (unfold len in Hb; lia).
  simpl. apply app_nil_r.
Qed.

(** A slice of [k > 0] items has [k] items only if it ends within [l]. *)
Lemma slice_full l a k :
  0 <= a -> 0 < k -> len (slice l a (a + k)) = k -> a + k <= len l.
Proof. intros Ha Hk. rewrite len_slice. lia. Qed.

End SliceFacts.

(** ** Little-endian fields *)

Section StructFacts.

Import Py Struct.
Local Open Scope Z_scope.

Lemma Z_of_byte_range b : 0 <= Z_of_byte b < 256.
Proof.
  unfold Z_of_byte. pose proof (Strings.Byte.to_N_bounded b). lia.
Qed.

Lemma Z_of_byte_of_Z z : 0 <= z < 256 -> Z_of_byte (byte_of_Z z) = z.
Proof.
  intros Hz. unfold Z_of_byte, byte_of_Z.
  rewrite Z.mod_small by lia.
  destruct (Strings.Byte.of_N (Z.to_N z)) as [b|] eqn:E.
  - apply Strings.Byte.to_of_N in E. lia.
  - apply Strings.Byte.of_N_None_iff in E. lia.
Qed.

Lemma byte_of_Z_of_byte b : byte_of_Z (Z_of_byte b) = b.
Proof.
  unfold byte_of_Z. pose proof (Z_of_byte_range b) as Hr.
  rewrite Z.mod_small by lia. unfold Z_of_byte.
  now rewrite N2Z.id, Strings.Byte.of_to_N.
Qed.

Lemma length_le_bytes n : forall v, List.length (le_bytes n v) = n.
Proof. induction n; intros v; simpl; congruence. Qed.

Lemma len_le_bytes n v : len (le_bytes n v) = Z.of_nat n.
Proof. unfold len. now rewrite length_le_bytes. Qed.

Lemma le_int_le_bytes n :
  forall v, 0 <= v < 2 ^ (8 * Z.of_nat n) -> le_int (le_bytes n v) = v.
Proof.
  induction n as [|n IH]; intros v Hv.
  - simpl in *. lia.
  - cbn [le_bytes le_int].
    replace (8 * Z.of_nat (S n)) with (8 + 8 * Z.of_nat n) in Hv by lia.
    rewrite Z.pow_add_r in Hv by lia. change (2 ^ 8) with 256 in Hv.
    rewrite Z_of_byte_of_Z by (apply Z.mod_pos_bound; lia).
    rewrite IH.
    + pose proof (Z.div_mod v 256). lia.
    + split.
      * apply Z.div_pos; lia.
      * apply Z.div_lt_upper_bound; lia.
Qed.

Lemma le_int_range bs : 0 <= le_int bs < 2 ^ (8 * len bs).
Proof.
  induction bs as [|b t IH].
  - simpl. lia.
  - cbn [le_int]. rewrite len_cons.
    replace (8 * (1 + len t)) with (8 + 8 * len t) by lia.
    pose proof (len_nonneg t).
    rewrite Z.pow_add_r by lia. change (2 ^ 8) with 256.
    pose proof (Z_of_byte_range b). lia.
Qed.

Lemma le_bytes_le_int bs : le_bytes (List.length bs) (le_int bs) = bs.
Proof.
  induction bs as [|b t IH]; [reflexivity|].
  cbn [le_int List.length le_bytes].
  pose proof (Z_of_byte_range b) as Hb.
  replace ((Z_of_byte b + 256 * le_int t) mod 256) with (Z_of_byte b).
  - replace ((Z_of_byte b + 256 * le_int t) / 256) with (le_int t).
    + now rewrite byte_of_Z_of_byte, IH.
    + symmetry. rewrite Z.mul_comm, Z.div_add by lia.
      rewrite Z.div_small; lia.
  - symmetry. rewrite Z.mul_comm, Z.mod_add by lia.
    apply Z.mod_small; lia.
Qed.

Lemma pack_uint_Ok n v :
  0 <= v < 2 ^ (8 * Z.of_nat n) -> pack_uint n v = Ok (le_bytes n v).
Proof.
  intros Hv. unfold pack_uint.
  destruct (Z.leb_spec 0 v); [|lia].
  destruct (Z.ltb_spec v (2 ^ (8 * Z.of_nat n))); [reflexivity|lia].
Qed.

Lemma pack_uint_inv n v bs :
  pack_uint n v = Ok bs ->
  0 <= v < 2 ^ (8 * Z.of_nat n) /\ bs = le_bytes n v.
Proof.
  unfold pack_uint.
  destruct (Z.leb_spec 0 v); destruct (Z.ltb_spec v (2 ^ (8 * Z.of_nat n)));
    cbn [andb]; intros E; inversion E; subst; split; (lia || reflexivity).
Qed.

Lemma unpack_uint_le_bytes n v :
  0 <= v < 2 ^ (8 * Z.of_nat n) -> unpack_uint n (le_bytes n v) = Ok v.
Proof.
  intros Hv. unfold unpack_uint.
  rewrite len_le_bytes, Z.eqb_refl. now rewrite le_int_le_bytes.
Qed.

Lemma unpack_uint_inv n buf v :
  unpack_uint n buf = Ok v -> len buf = Z.of_nat n /\ v = le_int buf.
Proof.
  unfold unpack_uint. destruct (Z.eqb_spec (len buf) (Z.of_nat n)).
  - intros E; inversion E; auto.
  - discriminate.
Qed.

Lemma pack_nH_inv vs : forall bs,
  pack_nH vs = Ok bs ->
  Forall (fun v => 0 <= v < 65536) vs /\
  len bs = 2 * len vs /\ le_int16s bs = vs.
Proof.
  induction vs as [|v t IH]; intros bs; cbn [pack_nH].
  - intros E; inversion E; subst. repeat split; auto.
  - unfold pack_H. destruct (pack_uint 2 v) as [bv|] eqn:Ev; [|discriminate].
    cbn [bind]. destruct (pack_nH t) as [bt|] eqn:Et; [|discriminate].
    cbn [bind]. intros E; inversion E; subst; clear E.
    apply pack_uint_inv in Ev. destruct Ev as [Hv ->].
    destruct (IH bt eq_refl) as (Hall & Hlen & Hdec).
    change (2 ^ (8 * Z.of_nat 2)) with 65536 in Hv.
    split; [constructor; assumption|]. split.
    + rewrite len_app, len_le_bytes, Hlen, len_cons. lia.
    + cbn [le_bytes app le_int16s]. rewrite Hdec. f_equal.
      change (le_int (le_bytes 2 v) = v). apply le_int_le_bytes.
      change (2 ^ (8 * Z.of_nat 2)) with 65536. lia.
Qed.

Lemma pack_nH_Ok vs :
  Forall (fun v => 0 <= v < 65536) vs -> exists bs, pack_nH vs = Ok bs.
Proof.
  induction 1 as [|v t Hv _ [bt Hbt]]; cbn [pack_nH].
  - now exists [].
  - unfold pack_H. rewrite pack_uint_Ok, Hbt by
      (change (2 ^ (8 * Z.of_nat 2)) with 65536; lia).
    cbn [bind]. eauto.
Qed.

End StructFacts.

(** ** UTF-8 *)

Section Utf8Facts.

Import Py Struct Utf8.
Local Open Scope Z_scope.
Local Open Scope py_scope.

Lemma cont_tail m : 0 <= m < 64 -> cont (byte_of_Z (0x80 + m)) = true.
Proof.
  intros Hm. unfold cont. rewrite Z_of_byte_of_Z by lia.
  apply andb_true_intro; split; [apply Z.leb_le|apply Z.leb_le]; lia.
Qed.

Lemma payload_tail m : 0 <= m < 64 -> payload (byte_of_Z (0x80 + m)) = m.
Proof. intros Hm. unfold payload. rewrite Z_of_byte_of_Z by lia. lia. Qed.

Ltac decide_tests :=
  repeat match goal with
    | |- context [?a <? ?b] =>
        destruct (Z.ltb_spec a b); [try (exfalso; lia)|try (exfalso; lia)]
    | |- context [?a <=? ?b] =>
        destruct (Z.leb_spec a b); [try (exfalso; lia)|try (exfalso; lia)]
    end.

(** Decoding what one code point was encoded to gives the code point back
    and leaves the rest of the buffer to be decoded. *)
Lemma decode_encode_char c :
  scalar c ->
  exists bc, encode_char c = Ok bc /\
    forall rest, decode (bc ++ rest) = (r <- decode rest ;; Ok (c :: r)).
Proof.
  intros Hc. unfold scalar in Hc. unfold encode_char.
  pose proof (Z.mod_pos_bound c 64 ltac:(lia)) as Hm0.
  pose proof (Z.mod_pos_bound (c / 64) 64 ltac:(lia)) as Hm1.
  pose proof (Z.mod_pos_bound (c / 4096) 64 ltac:(lia)) as Hm2.
  pose proof (Z.div_mod c 64 ltac:(lia)) as Hd0.
  pose proof (Z.div_mod (c / 64) 64 ltac:(lia)) as Hd1.
  pose proof (Z.div_mod (c / 4096) 64 ltac:(lia)) as Hd2.
  assert (Hq1 : c / 64 / 64 = c / 4096)
    by (rewrite Z.div_div by lia; reflexivity).
  assert (Hq2 : c / 4096 / 64 = c / 262144)
    by (rewrite Z.div_div by lia; reflexivity).
  rewrite Hq1 in Hd1. rewrite Hq2 in Hd2.
  destruct (Z.ltb_spec c 0); [lia|].
  destruct (Z.ltb_spec c 0x80).
  { eexists; split; [reflexivity|]. intros rest.
    cbn [app decode]. rewrite Z_of_byte_of_Z by lia.
    destruct (Z.ltb_spec c 0x80); [reflexivity|lia]. }
  destruct (Z.ltb_spec c 0x800).
  { eexists; split; [reflexivity|]. intros rest.
    cbn [app decode]. rewrite Z_of_byte_of_Z by lia.
    rewrite cont_tail, payload_tail by lia.
    decide_tests.
    replace ((0xC0 + c / 64 - 0xC0) * 64 + c mod 64) with c by lia.
    reflexivity. }
  destruct (Z.ltb_spec c 0x10000).
  { destruct (Z.leb_spec 0xD800 c); destruct (Z.leb_spec c 0xDFFF);
      cbn [andb]; try lia.
    all: eexists; (split; [reflexivity|]); intros rest.
    all: cbn [app decode]; rewrite Z_of_byte_of_Z by lia.
    all: rewrite !cont_tail, !payload_tail by lia.
    all: replace ((0xE0 + c / 4096 - 0xE0) * 4096 + (c / 64) mod 64 * 64
                  + c mod 64) with c by lia.
    all: decide_tests; cbn [andb negb]; reflexivity. }
  destruct (Z.ltb_spec c 0x110000); [|lia].
  eexists; split; [reflexivity|]. intros rest.
  cbn [app decode]. rewrite Z_of_byte_of_Z by lia.
  rewrite !cont_tail, !payload_tail by lia.
  replace ((0xF0 + c / 262144 - 0xF0) * 262144 + (c / 4096) mod 64 * 4096
           + (c / 64) mod 64 * 64 + c mod 64) with c by lia.
  decide_tests; cbn [andb]; reflexivity.
Qed.

Lemma utf8_decode_encode s :
  Forall scalar s ->
  exists bs, encode s = Ok bs /\ decode bs = Ok s.
Proof.
  induction 1 as [|c t Hc _ (bt & Het & Hdt)]; cbn [encode].
  - now exists [].
  - destruct (decode_encode_char c Hc) as (bc & Hec & Hdc).
    rewrite Hec, Het. cbn [bind]. exists (bc ++ bt). split; [reflexivity|].
    rewrite Hdc, Hdt. reflexivity.
Qed.

(** Decoded text consists of scalar values only. *)
Lemma decode_scalar : forall n bs s,
  (List.length bs <= n)%nat -> decode bs = Ok s -> Forall scalar s.
Proof.
  induction n as [|n IH]; intros bs s Hn.
  - destruct bs; [|simpl in Hn; lia].
    cbn [decode]. intros E; inversion E; constructor.
  - destruct bs as [|b0 r0]; cbn [decode].
    { intros E; inversion E; constructor. }
    pose proof (Z_of_byte_range b0) as Hr0.
    simpl in Hn.
    destruct (Z.ltb_spec (Z_of_byte b0) 0x80).
    { destruct (decode r0) as [r|] eqn:Er; [|discriminate].
      cbn [bind]. intros E; inversion E; subst; clear E.
      constructor; [unfold scalar; lia|]. apply (IH r0); [lia|assumption]. }
    destruct (Z.ltb_spec (Z_of_byte b0) 0xC2); [discriminate|].
    destruct (Z.ltb_spec (Z_of_byte b0) 0xE0).
    { destruct r0 as [|b1 r1]; [discriminate|].
      unfold cont, payload. pose proof (Z_of_byte_range b1).
      destruct (Z.leb_spec 0x80 (Z_of_byte b1));
        destruct (Z.leb_spec (Z_of_byte b1) 0xBF);
        cbn [andb]; try discriminate.
      destruct (decode r1) as [r|] eqn:Er; [|discriminate].
      cbn [bind]. intros E; inversion E; subst; clear E.
      constructor; [unfold scalar; lia|].
      apply (IH r1); [simpl in Hn; lia|assumption]. }
    destruct (Z.ltb_spec (Z_of_byte b0) 0xF0).
    { destruct r0 as [|b1 [|b2 r2]]; try discriminate.
      set (c := (Z_of_byte b0 - 0xE0) * 4096 + payload b1 * 64 + payload b2).
      destruct (cont b1 && cont b2 && (0x800 <=? c)
                && negb ((0xD800 <=? c) && (c <=? 0xDFFF))) eqn:Et;
        [|discriminate].
      destruct (decode r2) as [r|] eqn:Er; [|discriminate].
      cbn [bind]. intros E; inversion E; subst; clear E.
      apply andb_prop in Et. destruct Et as [Et Hs].
      apply andb_prop in Et. destruct Et as [Et Hlo].
      apply andb_prop in Et. destruct Et as [Hc1 Hc2].
      unfold cont in Hc1, Hc2.
      apply andb_prop in Hc1, Hc2. destruct Hc1, Hc2.
      apply Z.leb_le in Hlo.
      apply negb_true_iff, andb_false_iff in Hs.
      assert (c < 0x10000) by (subst c; unfold payload; lia).
      constructor.
      - unfold scalar. destruct Hs as [Hs|Hs]; apply Z.leb_gt in Hs; lia.
      - apply (IH r2); [simpl in Hn; lia|assumption]. }
    destruct (Z.ltb_spec (Z_of_byte b0) 0xF5); [|discriminate].
    destruct r0 as [|b1 [|b2 [|b3 r3]]]; try discriminate.
    set (c := (Z_of_byte b0 - 0xF0) * 262144 + payload b1 * 4096
              + payload b2 * 64 + payload b3).
    destruct (cont b1 && cont b2 && cont b3 && (0x10000 <=? c)
              && (c <=? 0x10FFFF)) eqn:Et; [|discriminate].
    destruct (decode r3) as [r|] eqn:Er; [|discriminate].
    cbn [bind]. intros E; inversion E; subst; clear E.
    apply andb_prop in Et. destruct Et as [Et Hhi].
    apply andb_prop in Et. destruct Et as [Et Hlo].
    apply Z.leb_le in Hlo, Hhi.
    constructor; [unfold scalar; lia|].
    apply (IH r3); [simpl in Hn; lia|assumption].
Qed.

End Utf8Facts.

(** ** The container: encoding then decoding *)

Section CodecFacts.

Import Py Struct Data OMAGenerator Spec.
Local Open Scope Z_scope.
Local Open Scope py_scope.

Lemma slice_at {A : Type} (pre x rest c : list A) a b :
  c = pre ++ x ++ rest -> len pre = a -> len x = b - a -> slice c a b = x.
Proof.
  intros -> Hp Hx. replace b with (a + (b - a)) by lia.
  now apply slice_app_mid.
Qed.

Lemma encode_char_len c bc : Utf8.encode_char c = Ok bc -> len bc <= 4.
Proof.
  unfold Utf8.encode_char.
  repeat match goal with
    | |- context [if ?t then _ else _] => destruct t
    end; intros E; inversion E; subst; unfold len; simpl; lia.
Qed.

Lemma encode_len s : forall bs, Utf8.encode s = Ok bs -> len bs <= 4 * len s.
Proof.
  induction s as [|c t IH]; intros bs; cbn [Utf8.encode].
  - intros E; inversion E; subst. unfold len; simpl; lia.
  - destruct (Utf8.encode_char c) as [bc|] eqn:Ec; [|discriminate].
    cbn [bind]. destruct (Utf8.encode t) as [bt|] eqn:Et; [|discriminate].
    cbn [bind]. intros E; inversion E; subst; clear E.
    rewrite len_app, len_cons. apply encode_char_len in Ec.
    specialize (IH bt eq_refl). lia.
Qed.

Lemma device_info_utf8 :
  exists db, Utf8.encode device_info = Ok db /\
             Utf8.decode db = Ok device_info /\ len db = 28.
Proof. eexists. split; [|split]; vm_compute; reflexivity. Qed.

Ltac len_norm :=
  repeat rewrite len_app; repeat rewrite len_le_bytes;
  repeat rewrite len_cons; repeat rewrite len_nil;
  change (len magic) with 4.

Ltac app_norm := repeat rewrite <- app_assoc; reflexivity.

(** Replace one slice of the goal by the field [x] that lies after [pre]. *)
Ltac read_field pre x rest :=
  match goal with
  | |- context [slice ?c ?a ?b] =>
      replace (slice c a b) with x
        by (symmetry; apply (slice_at pre x rest);
            [subst; app_norm | len_norm; lia | len_norm; lia])
  end.

Lemma unpack_4I_le_bytes a b c d :
  u32 a -> u32 b -> u32 c -> u32 d ->
  unpack_4I (le_bytes 4 a ++ le_bytes 4 b ++ le_bytes 4 c ++ le_bytes 4 d)
  = Ok (a, b, c, d).
Proof.
  unfold u32. intros Ha Hb Hc Hd. unfold unpack_4I.
  replace (len _ =? 16) with true by (symmetry; apply Z.eqb_eq; len_norm; lia).
  remember (le_bytes 4 a ++ le_bytes 4 b ++ le_bytes 4 c ++ le_bytes 4 d)
    as buf eqn:Hbuf.
  read_field (@nil byte) (le_bytes 4 a)
        (le_bytes 4 b ++ le_bytes 4 c ++ le_bytes 4 d).
  read_field (le_bytes 4 a) (le_bytes 4 b) (le_bytes 4 c ++ le_bytes 4 d).
  read_field (le_bytes 4 a ++ le_bytes 4 b) (le_bytes 4 c) (le_bytes 4 d).
  replace (slice buf 12 16) with (le_bytes 4 d)
    by (symmetry;
        apply (slice_at (le_bytes 4 a ++ le_bytes 4 b ++ le_bytes 4 c)
                 _ (@nil byte));
        [subst; rewrite app_nil_r; app_norm | len_norm; lia | len_norm; lia]).
  now rewrite !le_int_le_bytes by (change (8 * Z.of_nat 4) with 32; lia).
Qed.

Lemma unpack_2d_pack_2d x y :
  float64_ok x -> float64_ok y -> unpack_2d (pack_2d x y) = Ok (x, y).
Proof.
  destruct x as [bx], y as [by_].
  unfold float64_ok, pack_2d; cbn [float64_bits].
  intros Hx Hy. unfold unpack_2d.
  replace (len _ =? 16) with true by (symmetry; apply Z.eqb_eq; len_norm; lia).
  remember (le_bytes 8 bx ++ le_bytes 8 by_) as buf eqn:Hbuf.
  read_field (@nil byte) (le_bytes 8 bx) (le_bytes 8 by_).
  replace (slice buf 8 16) with (le_bytes 8 by_)
    by (symmetry; apply (slice_at (le_bytes 8 bx) _ (@nil byte));
        [subst; now rewrite app_nil_r | len_norm; lia | len_norm; lia]).
  now rewrite !le_int_le_bytes by (change (8 * Z.of_nat 8) with 64; lia).
Qed.

(** Whatever [scan_data] holds within the ranges of the fields, the
    generator builds a buffer and the parser reads back from it what was
    written, defaults included. *)
Lemma parse_build now sd :
  text_ok (written_timestamp now sd) ->
  measurements_ok (get (measurements sd) no_measurements) ->
  u32 (len (written_radii sd)) ->
  Forall u16 (written_radii sd) ->
  exists content,
    _build_oma_content now sd = Ok content /\
    _parse_oma_content content
    = Ok (mkOMAContent 1 (written_timestamp now sd) device_info
            (written_measurements sd) (written_radii sd)).
Proof.
  unfold written_timestamp, written_measurements, written_radii, text_ok,
    measurements_ok.
  intros [Hts Htl] (Hw & Hh & Hcx & Hcy & Ha & Hp) Hn Hrs.
  set (ts := get (timestamp sd) now) in *.
  set (m := get (measurements sd) no_measurements) in *.
  set (rs := get (radii sd) []) in *.
  destruct (utf8_decode_encode ts Hts) as (tb & Hte & Htd).
  destruct device_info_utf8 as (db & Hde & Hdd & Hdl).
  pose proof (encode_len _ _ Hte) as Htb.
  pose proof (len_nonneg tb) as Htb0.
  destruct (pack_nH_Ok rs Hrs) as (rb & Hrb).
  destruct (pack_nH_inv _ _ Hrb) as (_ & Hrl & Hrd).
  unfold u32 in *.
  assert (Hhead : _create_header now sd
                  = Ok (magic ++ le_bytes 4 1 ++ le_bytes 4 (len rs)
                          ++ le_bytes 4 (len tb) ++ tb
                          ++ le_bytes 4 (len db) ++ db)).
  { unfold _create_header, pack_I. fold rs ts.
    rewrite (pack_uint_Ok 4 1) by (change (8 * Z.of_nat 4) with 32; lia).
    rewrite (pack_uint_Ok 4 (len rs)) by (change (8 * Z.of_nat 4) with 32; lia).
    rewrite Hte. cbn [bind].
    rewrite (pack_uint_Ok 4 (len tb)) by (change (8 * Z.of_nat 4) with 32; lia).
    rewrite Hde. cbn [bind].
    rewrite (pack_uint_Ok 4 (len db)) by (change (8 * Z.of_nat 4) with 32; lia).
    reflexivity. }
  destruct (get (center m) (0, 0)) as [cx cy] eqn:Hcen. cbn [fst snd] in *.
  assert (Hframe : _create_frame_data sd
                   = Ok ((le_bytes 4 (get (width m) 0)
                            ++ le_bytes 4 (get (height m) 0)
                            ++ le_bytes 4 cx ++ le_bytes 4 cy)
                           ++ pack_2d (get (area m) float64_zero)
                                (get (perimeter m) float64_zero))).
  { unfold _create_frame_data, pack_4I, pack_I. fold m. rewrite Hcen.
    rewrite !pack_uint_Ok by (change (8 * Z.of_nat 4) with 32; lia).
    reflexivity. }
  assert (Hrad : _create_radius_data sd = Ok rb).
  { unfold _create_radius_data. fold rs. destruct rs; [|exact Hrb].
    cbn [pack_nH] in Hrb. exact Hrb. }
  eexists. split.
  { unfold _build_oma_content. rewrite Hhead, Hframe, Hrad. reflexivity. }
  set (w4 := le_bytes 4 (get (width m) 0)
             ++ le_bytes 4 (get (height m) 0)
             ++ le_bytes 4 cx ++ le_bytes 4 cy).
  set (d2 := pack_2d (get (area m) float64_zero)
               (get (perimeter m) float64_zero)).
  assert (Hw4 : len w4 = 16) by (subst w4; len_norm; lia).
  assert (Hd2 : len d2 = 16) by (subst d2; unfold pack_2d; len_norm; lia).
  remember ((magic ++ le_bytes 4 1 ++ le_bytes 4 (len rs)
               ++ le_bytes 4 (len tb) ++ tb ++ le_bytes 4 (len db) ++ db)
            ++ (w4 ++ d2) ++ rb) as content eqn:Hcontent.
  unfold _parse_oma_content. cbv zeta.
  read_field (@nil byte) magic
    (le_bytes 4 1 ++ le_bytes 4 (len rs) ++ le_bytes 4 (len tb) ++ tb
       ++ le_bytes 4 (len db) ++ db ++ w4 ++ d2 ++ rb).
  change (unpack_4s magic) with (Ok magic). cbn [bind].
  destruct (list_eq_dec Strings.Byte.byte_eq_dec magic magic) as [_|Hne];
    [|congruence].
  cbn [negb].
  read_field magic (le_bytes 4 1)
    (le_bytes 4 (len rs) ++ le_bytes 4 (len tb) ++ tb
       ++ le_bytes 4 (len db) ++ db ++ w4 ++ d2 ++ rb).
  unfold unpack_I.
  rewrite unpack_uint_le_bytes by (change (8 * Z.of_nat 4) with 32; lia).
  cbn [bind].
  read_field (magic ++ le_bytes 4 1) (le_bytes 4 (len rs))
    (le_bytes 4 (len tb) ++ tb ++ le_bytes 4 (len db) ++ db
       ++ w4 ++ d2 ++ rb).
  rewrite unpack_uint_le_bytes by (change (8 * Z.of_nat 4) with 32; lia).
  cbn [bind].
  read_field (magic ++ le_bytes 4 1 ++ le_bytes 4 (len rs))
    (le_bytes 4 (len tb))
    (tb ++ le_bytes 4 (len db) ++ db ++ w4 ++ d2 ++ rb).
  rewrite unpack_uint_le_bytes by (change (8 * Z.of_nat 4) with 32; lia).
  cbn [bind].
  read_field (magic ++ le_bytes 4 1 ++ le_bytes 4 (len rs)
                ++ le_bytes 4 (len tb))
    tb (le_bytes 4 (len db) ++ db ++ w4 ++ d2 ++ rb).
  rewrite Htd. cbn [bind].
  read_field (magic ++ le_bytes 4 1 ++ le_bytes 4 (len rs)
                ++ le_bytes 4 (len tb) ++ tb)
    (le_bytes 4 (len db)) (db ++ w4 ++ d2 ++ rb).
  rewrite unpack_uint_le_bytes by (change (8 * Z.of_nat 4) with 32; lia).
  cbn [bind].
  read_field (magic ++ le_bytes 4 1 ++ le_bytes 4 (len rs)
                ++ le_bytes 4 (len tb) ++ tb ++ le_bytes 4 (len db))
    db (w4 ++ d2 ++ rb).
  rewrite Hdd. cbn [bind].
  read_field (magic ++ le_bytes 4 1 ++ le_bytes 4 (len rs)
                ++ le_bytes 4 (len tb) ++ tb ++ le_bytes 4 (len db) ++ db)
    w4 (d2 ++ rb).
  subst w4. rewrite unpack_4I_le_bytes by (unfold u32; lia).
  cbn [bind].
  set (w4 := le_bytes 4 (get (width m) 0)
             ++ le_bytes 4 (get (height m) 0)
             ++ le_bytes 4 cx ++ le_bytes 4 cy) in *.
  read_field (magic ++ le_bytes 4 1 ++ le_bytes 4 (len rs)
                ++ le_bytes 4 (len tb) ++ tb ++ le_bytes 4 (len db) ++ db
                ++ w4)
    d2 rb.
  subst d2. rewrite unpack_2d_pack_2d by assumption. cbn [bind].
  set (d2 := pack_2d (get (area m) float64_zero)
               (get (perimeter m) float64_zero)) in *.
  replace (slice content _ _) with rb.
  - unfold unpack_nH. rewrite Hrl, Z.eqb_refl.
    cbn [bind]. rewrite Hrd. reflexivity.
  - symmetry.
    apply (slice_at (magic ++ le_bytes 4 1 ++ le_bytes 4 (len rs)
                       ++ le_bytes 4 (len tb) ++ tb ++ le_bytes 4 (len db)
                       ++ db ++ w4 ++ d2) rb (@nil byte)).
    + subst content. rewrite app_nil_r. app_norm.
    + len_norm. lia.
    + len_norm. lia.
Qed.

End CodecFacts.

(** ** The container: what the parser accepts *)

Section ParserFacts.

Import Py Struct Data OMAGenerator Spec.
Local Open Scope Z_scope.
Local Open Scope py_scope.

Ltac fold_offsets H :=
  change (0 + 4 + 4 + 4 + 4) with 16 in H;
  change (0 + 4 + 4 + 4) with 12 in H;
  change (0 + 4 + 4) with 8 in H;
  change (0 + 4) with 4 in H.

Ltac fold_offsets_goal :=
  change (0 + 4 + 4 + 4 + 4) with 16;
  change (0 + 4 + 4 + 4) with 12;
  change (0 + 4 + 4) with 8;
  change (0 + 4) with 4.

(** Follow a successful run of the parser, naming what each step read. *)
Ltac parse_steps H :=
  unfold _parse_oma_content in H; cbv zeta in H; fold_offsets H;
  let step := (cbn [bind] in H) in
  destruct (unpack_4s (slice _ 0 4)) as [mg|] eqn:E0; [|discriminate H];
  step;
  destruct (list_eq_dec Strings.Byte.byte_eq_dec mg magic) as [Hmagic|];
    [|discriminate H];
  cbn [negb] in H;
  destruct (unpack_I (slice _ 4 8)) as [ver|] eqn:E1; [|discriminate H];
  step;
  destruct (unpack_I (slice _ 8 12)) as [nr|] eqn:E2; [|discriminate H];
  step;
  destruct (unpack_I (slice _ 12 16)) as [tl|] eqn:E3; [|discriminate H];
  step;
  destruct (Utf8.decode (slice _ 16 (16 + tl))) as [ts|] eqn:E4;
    [|discriminate H];
  step;
  destruct (unpack_I (slice _ (16 + tl) (16 + tl + 4))) as [dl|] eqn:E5;
    [|discriminate H];
  step;
  destruct (Utf8.decode (slice _ (16 + tl + 4) (16 + tl + 4 + dl)))
    as [dev|] eqn:E6; [|discriminate H];
  step;
  destruct (unpack_4I (slice _ (16 + tl + 4 + dl) (16 + tl + 4 + dl + 16)))
    as [[[[w h] cx] cy]|] eqn:E7; [|discriminate H];
  step;
  destruct (unpack_2d (slice _ (16 + tl + 4 + dl + 16)
                         (16 + tl + 4 + dl + 16 + 16)))
    as [[a p]|] eqn:E8; [|discriminate H];
  step;
  destruct (unpack_nH nr (slice _ (16 + tl + 4 + dl + 16 + 16)
                            (16 + tl + 4 + dl + 16 + 16 + nr * 2)))
    as [rs|] eqn:E9; [|discriminate H];
  step.

Lemma slice_len_bound {A : Type} (l : list A) a b k :
  len (slice l a b) = k -> 0 <= a <= len l -> b - a = k -> b <= len l.
Proof. rewrite len_slice. lia. Qed.

Lemma slice_len_full {A : Type} (l : list A) a b k :
  len (slice l a b) = k -> 0 <= a -> 0 < k -> b - a = k -> b <= len l.
Proof. rewrite len_slice. lia. Qed.

Lemma unpack_4s_inv buf mg : unpack_4s buf = Ok mg -> len buf = 4 /\ mg = buf.
Proof.
  unfold unpack_4s. destruct (Z.eqb_spec (len buf) 4); [|discriminate].
  intros E; inversion E; subst; auto.
Qed.

Lemma unpack_4I_len buf v : unpack_4I buf = Ok v -> len buf = 16.
Proof.
  unfold unpack_4I. destruct (Z.eqb_spec (len buf) 16); [auto|discriminate].
Qed.

Lemma unpack_2d_len buf v : unpack_2d buf = Ok v -> len buf = 16.
Proof.
  unfold unpack_2d. destruct (Z.eqb_spec (len buf) 16); [auto|discriminate].
Qed.

Lemma unpack_nH_len n buf v : unpack_nH n buf = Ok v -> len buf = 2 * n.
Proof.
  unfold unpack_nH.
  destruct (Z.eqb_spec (len buf) (2 * n)); [auto|discriminate].
Qed.

(** A buffer that parses holds every section its header declares. *)
Lemma parse_Ok_bounds content d :
  _parse_oma_content content = Ok d ->
  0 <= declared_timestamp_len content /\
  0 <= declared_device_len content /\
  0 <= declared_num_radii content /\
  52 + declared_timestamp_len content + declared_device_len content
    + 2 * declared_num_radii content <= len content.
Proof.
  intros H. parse_steps H.
  apply unpack_4s_inv in E0. destruct E0 as [L0 ->].
  apply unpack_uint_inv in E1, E2, E3, E5.
  destruct E1 as [L1 ->], E2 as [L2 ->], E3 as [L3 ->], E5 as [L5 ->].
  change (Z.of_nat 4) with 4 in *.
  apply unpack_4I_len in E7. apply unpack_2d_len in E8.
  apply unpack_nH_len in E9.
  unfold declared_device_len, declared_timestamp_len, declared_num_radii,
    u32_at.
  change (8 + 4) with 12. change (12 + 4) with 16.
  set (tl := le_int (slice content 12 16)) in *.
  set (dl := le_int (slice content (16 + tl) (16 + tl + 4))) in *.
  set (nr := le_int (slice content 8 12)) in *.
  assert (0 <= tl) by apply le_int_range.
  assert (0 <= dl) by apply le_int_range.
  assert (0 <= nr) by apply le_int_range.
  apply slice_len_full in L3; [|lia..].
  apply slice_len_full in L5; [|lia..].
  apply slice_len_full in E7; [|lia..].
  apply slice_len_full in E8; [|lia..].
  apply slice_len_bound in E9; [|lia..].
  lia.
Qed.

(** The exceptions of the building blocks. *)
Lemma unpack_uint_Raise n buf e :
  unpack_uint n buf = Raise e -> e = struct_error.
Proof. unfold unpack_uint. destruct (_ =? _); congruence. Qed.

Lemma unpack_4s_Raise buf e : unpack_4s buf = Raise e -> e = struct_error.
Proof. unfold unpack_4s. destruct (_ =? _); congruence. Qed.

Lemma unpack_4I_Raise buf e : unpack_4I buf = Raise e -> e = struct_error.
Proof. unfold unpack_4I. destruct (_ =? _); congruence. Qed.

Lemma unpack_2d_Raise buf e : unpack_2d buf = Raise e -> e = struct_error.
Proof. unfold unpack_2d. destruct (_ =? _); congruence. Qed.

Lemma unpack_nH_Raise n buf e : unpack_nH n buf = Raise e -> e = struct_error.
Proof. unfold unpack_nH. destruct (_ =? _); congruence. Qed.

Lemma decode_Raise : forall n bs e,
  (List.length bs <= n)%nat -> Utf8.decode bs = Raise e ->
  e = UnicodeDecodeError.
Proof.
  induction n as [|n IH]; intros bs e Hn.
  - destruct bs; [|simpl in Hn; lia]. discriminate.
  - destruct bs as [|b0 r0]; cbn [Utf8.decode]; [discriminate|].
    simpl in Hn.
    repeat match goal with
      | |- (if ?t then _ else _) = _ -> _ => destruct t
      | |- match ?r with [] => _ | _ :: _ => _ end = _ -> _ =>
          destruct r; simpl in Hn
      | |- (_ <- Utf8.decode ?r ;; _) = _ -> _ =>
          let E := fresh "E" in
          destruct (Utf8.decode r) eqn:E; cbn [bind];
          [|apply IH in E; [|lia]]
      end; congruence.
Qed.

(** The parser raises nothing else than [struct.error], a decoding error
    or, on the first four bytes being present and different from the
    marker, its own [ValueError]. *)
Lemma parse_Raise content e :
  _parse_oma_content content = Raise e ->
  e = struct_error \/ e = UnicodeDecodeError \/
  (e = invalid_format /\ slice content 0 4 <> magic).
Proof.
  unfold _parse_oma_content. cbv zeta. fold_offsets_goal.
  destruct (unpack_4s _) as [mg|] eqn:E0; cbn [bind];
    [|intros H; inversion H; subst; left; eapply unpack_4s_Raise; eauto].
  apply unpack_4s_inv in E0. destruct E0 as [_ ->].
  destruct (list_eq_dec _ _ _) as [Hm|Hm]; cbn [negb];
    [|intros H; inversion H; auto].
  repeat match goal with
    | |- (_ <- ?c ;; _) = _ -> _ =>
        let E := fresh "E" in
        destruct c eqn:E; cbn [bind];
        [|intros H; inversion H; subst; clear H]
    | |- (let '(_, _) := ?x in _) = _ -> _ => destruct x
    end;
    try discriminate;
    try (left;
         first [eapply unpack_uint_Raise; eassumption
               |eapply unpack_4I_Raise; eassumption
               |eapply unpack_2d_Raise; eassumption
               |eapply unpack_nH_Raise; eassumption]);
    try (right; left; eapply decode_Raise; [apply Nat.le_refl|eassumption]).
Qed.

(** ** The properties of the container *)

(** Claim C1.  A record with every key present, whose radius list has at
    most 65535 items each fitting 16 bits, whose timestamp is valid text
    and whose measurements fit their fields, is encoded, and decoding the
    bytes gives back the timestamp, the width, height, center, area and
    perimeter, and the radius list, each equal to the one encoded. *)
Theorem decode_encode_roundtrip now sd :
  complete sd ->
  text_ok (written_timestamp now sd) ->
  measurements_ok (get (measurements sd) no_measurements) ->
  0 <= len (written_radii sd) <= 65535 ->
  Forall u16 (written_radii sd) ->
  exists content d,
    _build_oma_content now sd = Ok content /\
    _parse_oma_content content = Ok d /\
    Some (oma_timestamp d) = timestamp sd /\
    Some (oma_measurements d) = measurements sd /\
    Some (oma_radii d) = radii sd.
Proof.
  intros (ts & w & h & a & c & p & rs & ->) Hts Hm Hn Hrs.
  destruct (parse_build now _ Hts Hm) as (content & Hb & Hp);
    [unfold u32; lia|assumption|].
  exists content. eexists. split; [exact Hb|]. split; [exact Hp|].
  cbn. auto.
Qed.

Lemma decode_encode_roundtrip_witness :
  exists content d,
    _build_oma_content [] Samples.sample_scan = Ok content /\
    _parse_oma_content content = Ok d /\
    Some (oma_timestamp d) = timestamp Samples.sample_scan /\
    Some (oma_measurements d) = measurements Samples.sample_scan /\
    Some (oma_radii d) = radii Samples.sample_scan.
Proof.
  apply (decode_encode_roundtrip [] Samples.sample_scan).
  - unfold complete, Samples.sample_scan. repeat eexists.
  - split.
    + repeat constructor; unfold Utf8.scalar; lia.
    + vm_compute. reflexivity.
  - unfold measurements_ok, u32, float64_ok. cbn. lia.
  - vm_compute. split; discriminate.
  - repeat constructor; unfold u16; lia.
Defined.

(** Claim C10.  Encoding does not fail for a missing measurement key, nor
    for a missing [measurements] dictionary: the buffer is built, and what
    is read back from it is 0 for a missing width, height, area or perimeter
    and (0, 0) for a missing center, the present keys being read back as
    they were. *)
Theorem encode_missing_keys now sd :
  text_ok (written_timestamp now sd) ->
  measurements_ok (get (measurements sd) no_measurements) ->
  u32 (len (written_radii sd)) ->
  Forall u16 (written_radii sd) ->
  exists content d,
    _build_oma_content now sd = Ok content /\
    _parse_oma_content content = Ok d /\
    let m := get (measurements sd) no_measurements in
    let m' := oma_measurements d in
    width m' = Some (get (width m) 0) /\
    height m' = Some (get (height m) 0) /\
    center m' = Some (get (center m) (0, 0)) /\
    area m' = Some (get (area m) float64_zero) /\
    perimeter m' = Some (get (perimeter m) float64_zero) /\
    (measurements sd = None ->
     m' = mkMeasurements (Some 0) (Some 0) (Some float64_zero)
            (Some (0, 0)) (Some float64_zero)).
Proof.
  intros Hts Hm Hn Hrs.
  destruct (parse_build now sd Hts Hm Hn Hrs) as (content & Hb & Hp).
  exists content. eexists. split; [exact Hb|]. split; [exact Hp|].
  cbv zeta. cbn [oma_measurements]. unfold written_measurements.
  cbn [width height center area perimeter].
  repeat (split; [reflexivity|]). intros ->. reflexivity.
Qed.

Lemma encode_missing_keys_witness :
  exists content d,
    _build_oma_content [] Samples.sample_scan_no_center = Ok content /\
    _parse_oma_content content = Ok d /\
    let m := get (measurements Samples.sample_scan_no_center)
               no_measurements in
    let m' := oma_measurements d in
    width m' = Some (get (width m) 0) /\
    height m' = Some (get (height m) 0) /\
    center m' = Some (get (center m) (0, 0)) /\
    area m' = Some (get (area m) float64_zero) /\
    perimeter m' = Some (get (perimeter m) float64_zero) /\
    (measurements Samples.sample_scan_no_center = None ->
     m' = mkMeasurements (Some 0) (Some 0) (Some float64_zero)
            (Some (0, 0)) (Some float64_zero)).
Proof.
  apply (encode_missing_keys [] Samples.sample_scan_no_center).
  - split.
    + repeat constructor; unfold Utf8.scalar; lia.
    + vm_compute. reflexivity.
  - unfold measurements_ok, u32, float64_ok. cbn. lia.
  - unfold u32. vm_compute. split; [discriminate|reflexivity].
  - constructor.
Defined.

(** Claim C3.  A buffer whose first four bytes are not the marker [OMAF] is
    rejected: the parser raises its [ValueError], the format error, and
    [read_oma_file] returns no record. *)
Theorem bad_magic_rejected content :
  4 <= len content ->
  slice content 0 4 <> magic ->
  _parse_oma_content content = Raise invalid_format /\
  error_tag invalid_format = Some FormatError /\
  read_oma_file (Some content) = None.
Proof.
  intros Hlen Hm.
  assert (H : _parse_oma_content content = Raise invalid_format).
  { unfold _parse_oma_content. cbv zeta. fold_offsets_goal.
    unfold unpack_4s.
    replace (len (slice content 0 4) =? 4) with true
      by (symmetry; apply Z.eqb_eq; rewrite len_slice; lia).
    cbn [bind].
    destruct (list_eq_dec _ _ _) as [E|E]; [contradiction|reflexivity]. }
  split; [exact H|]. split; [reflexivity|].
  unfold read_oma_file. now rewrite H.
Qed.

Lemma bad_magic_rejected_witness :
  _parse_oma_content Samples.png_content = Raise invalid_format /\
  error_tag invalid_format = Some FormatError /\
  read_oma_file (Some Samples.png_content) = None.
Proof.
  apply (bad_magic_rejected Samples.png_content).
  - vm_compute. discriminate.
  - vm_compute. discriminate.
Defined.

(** Claim C9.  The parser does not look past the radius section: a buffer
    that parses still parses, to the same record, with any bytes appended. *)
Theorem trailing_bytes_ignored content suffix d :
  _parse_oma_content content = Ok d ->
  _parse_oma_content (content ++ suffix) = Ok d.
Proof.
  intros H. pose proof (parse_Ok_bounds _ _ H) as (Htl & Hdl & Hnr & Hlen).
  revert Htl Hdl Hnr Hlen.
  unfold declared_device_len, declared_timestamp_len, declared_num_radii,
    u32_at.
  change (8 + 4) with 12. change (12 + 4) with 16.
  intros Htl Hdl Hnr Hlen.
  parse_steps H.
  pose proof (unpack_uint_inv _ _ _ E2) as [_ Hnr'].
  pose proof (unpack_uint_inv _ _ _ E3) as [_ Htl'].
  pose proof (unpack_uint_inv _ _ _ E5) as [_ Hdl'].
  rewrite <- Htl' in *. rewrite <- Hdl', <- Hnr' in *.
  unfold _parse_oma_content. cbv zeta. fold_offsets_goal.
  rewrite !slice_app_l by lia.
  rewrite E0. cbn [bind].
  destruct (list_eq_dec Strings.Byte.byte_eq_dec mg magic); [|contradiction].
  cbn [negb].
  rewrite E1. cbn [bind]. rewrite E2. cbn [bind]. rewrite E3. cbn [bind].
  rewrite !slice_app_l by lia.
  rewrite E4. cbn [bind]. rewrite E5. cbn [bind].
  rewrite !slice_app_l by lia.
  rewrite E6. cbn [bind]. rewrite E7. cbn [bind]. rewrite E8. cbn [bind].
  rewrite E9. cbn [bind]. exact H.
Qed.

Lemma trailing_bytes_ignored_witness :
  _parse_oma_content (Samples.sample_content ++ Samples.png_content)
  = Ok Samples.sample_record.
Proof.
  apply (trailing_bytes_ignored Samples.sample_content Samples.png_content).
  vm_compute. reflexivity.
Defined.

(** A buffer shorter than the marker does not reach the marker check. *)
Lemma parse_short content :
  len content < 4 -> _parse_oma_content content = Raise struct_error.
Proof.
  intros H. unfold _parse_oma_content. cbv zeta. fold_offsets_goal.
  unfold unpack_4s.
  replace (len (slice content 0 4) =? 4) with false; [reflexivity|].
  symmetry. apply Z.eqb_neq. rewrite len_slice.
  pose proof (len_nonneg content). lia.
Qed.

(** Each declared length that announces a section ending past the end
    makes the buffer shorter than its header declares. *)
Lemma declared_section_past_end content :
  len content < 16 + declared_timestamp_len content \/
  len content
  < 20 + declared_timestamp_len content + declared_device_len content \/
  len content
  < 52 + declared_timestamp_len content + declared_device_len content
    + 2 * declared_num_radii content ->
  reads_past_end content.
Proof.
  unfold reads_past_end, declared_device_len, declared_timestamp_len,
    declared_num_radii, u32_at.
  pose proof (le_int_range (slice content 8 (8 + 4))).
  pose proof (le_int_range (slice content 12 (12 + 4))).
  set (tl := le_int (slice content 12 (12 + 4))) in *.
  pose proof (le_int_range (slice content (16 + tl) (16 + tl + 4))).
  lia.
Qed.

(** Claim C2, as the code has it.  A buffer in which a declared length
    (timestamp length, device length or radius count) reads past the end,
    wherever the buffer stops, is never decoded to a record, partial or not:
    the parser raises, and [read_oma_file] returns nothing.  The exception
    is not a dedicated truncation error: it is [struct.error], or the
    decoding error of clipped text, or, when the first four bytes are there
    and are not the marker, the [ValueError] of the marker check. *)
Theorem truncated_is_rejected content :
  reads_past_end content ->
  exists e,
    _parse_oma_content content = Raise e /\
    (e = struct_error \/ e = UnicodeDecodeError \/
     (e = invalid_format /\ 4 <= len content /\
      slice content 0 4 <> magic)) /\
    read_oma_file (Some content) = None.
Proof.
  intros Hpast.
  destruct (_parse_oma_content content) as [d|e] eqn:E.
  - exfalso. apply parse_Ok_bounds in E.
    destruct E as (Htl & Hdl & Hnr & Hlen).
    unfold reads_past_end in Hpast. lia.
  - exists e. split; [reflexivity|].
    pose proof (parse_Raise _ _ E) as Hcases.
    split.
    + destruct Hcases as [->|[->|[-> Hne]]]; auto.
      right. right. split; [reflexivity|]. split; [|exact Hne].
      destruct (Z.lt_ge_cases (len content) 4) as [Hs|Hs]; [|exact Hs].
      rewrite (parse_short _ Hs) in E. discriminate E.
    + unfold read_oma_file. now rewrite E.
Qed.

Lemma truncated_is_rejected_witness :
  exists e,
    _parse_oma_content Samples.cut_content = Raise e /\
    (e = struct_error \/ e = UnicodeDecodeError \/
     (e = invalid_format /\ 4 <= len Samples.cut_content /\
      slice Samples.cut_content 0 4 <> magic)) /\
    read_oma_file (Some Samples.cut_content) = None.
Proof.
  apply (truncated_is_rejected Samples.cut_content).
  unfold reads_past_end. vm_compute. reflexivity.
Defined.

(** Claim C2, as stated, fails on a file cut in its radius section: the
    header announces four radii, three are there, and the parser raises the
    untagged [struct.error]. *)
Lemma truncation_not_tagged : ~ truncation_tagged Samples.truncated_content.
Proof.
  unfold truncation_tagged. intros H.
  destruct H as (e & He & Htag).
  - unfold reads_past_end. vm_compute. reflexivity.
  - assert (Hrun : _parse_oma_content Samples.truncated_content
                   = Raise struct_error) by (vm_compute; reflexivity).
    rewrite Hrun in He. inversion He; subst. discriminate Htag.
Qed.

End ParserFacts.

(** ** The frame processor *)

Section ProcessorFacts.

Import Py Data FrameProcessor Spec.
Local Open Scope Z_scope.
Local Open Scope py_scope.

Context `{cv : OpenCV}.

(** A loop that appends to a list builds the list of what it appends. *)
Lemma fold_left_append {A B : Type} (f : A -> B) (l : list A) :
  forall acc, fold_left (fun acc i => acc ++ [f i]) l acc = acc ++ map f l.
Proof.
  induction l as [|x t IH]; intros acc; cbn [fold_left map].
  - now rewrite app_nil_r.
  - rewrite IH, <- app_assoc. reflexivity.
Qed.

Lemma fold_left_keep {A : Type} (keep : A -> bool) (l : list A) :
  forall acc,
    fold_left (fun acc x => if keep x then acc ++ [x] else acc) l acc
    = acc ++ filter keep l.
Proof.
  induction l as [|x t IH]; intros acc; cbn [fold_left filter].
  - now rewrite app_nil_r.
  - rewrite IH. destruct (keep x); [|reflexivity].
    rewrite <- app_assoc. reflexivity.
Qed.

Lemma detect_is_filter processed_frame :
  _detect_frame_contours processed_frame
  = filter accepted (findContours_EXTERNAL_SIMPLE processed_frame).
Proof. unfold _detect_frame_contours. now rewrite fold_left_keep. Qed.

Lemma filter_none {A : Type} (keep : A -> bool) (l : list A) :
  Forall (fun x => keep x = false) l -> filter keep l = [].
Proof.
  induction 1 as [|x t Hx _ IH]; cbn [filter]; [reflexivity|].
  now rewrite Hx.
Qed.

(** The measurements are read off the kept contours and nothing else. *)
Lemma extract_measurements_contours self1 self2 frame1 frame2 :
  scan_contours self1 = scan_contours self2 ->
  _extract_measurements self1 frame1 = _extract_measurements self2 frame2.
Proof. unfold _extract_measurements. now intros ->. Qed.

Lemma generate_radii_data_center (m : Measurements Q) c :
  center m = Some c ->
  _generate_radii_data m = map (fun i => int_of_real (radius i)) (range 1000).
Proof.
  destruct m as [w h a c' p]. cbn [center]. intros ->.
  unfold _generate_radii_data. cbn [center].
  rewrite fold_left_append.
  destruct w, h, a, p; reflexivity.
Qed.

Lemma len_range n : len (range n) = Z.of_nat n.
Proof. unfold len, range. now rewrite length_map, length_seq. Qed.

Lemma nth_range n i d :
  0 <= i < Z.of_nat n -> nth (Z.to_nat i) (range n) d = i.
Proof.
  intros Hi. unfold range.
  rewrite (nth_indep _ d (Z.of_nat 0))
    by (rewrite length_map, length_seq; lia).
  rewrite map_nth, seq_nth by lia. lia.
Qed.

Lemma radius_range i : (1500 <= radius i <= 2700)%R.
Proof.
  unfold radius, py_max, py_min.
  repeat match goal with
    | |- context [Rlt_dec ?a ?b] => destruct (Rlt_dec a b)
    end; lra.
Qed.

Lemma py_max_Rmax a b : py_max a b = Rmax a b.
Proof.
  unfold py_max, Rmax. destruct (Rlt_dec a b), (Rle_dec a b); lra.
Qed.

Lemma py_min_Rmin a b : py_min a b = Rmin a b.
Proof.
  unfold py_min, Rmin. destruct (Rlt_dec b a), (Rle_dec a b); lra.
Qed.

Lemma radius_curve i : radius i = curve (theta i).
Proof.
  unfold radius, curve, clamp, variation, base_radius.
  rewrite py_max_Rmax, py_min_Rmin, Rmin_comm.
  replace (angle i * 2)%R with (2 * theta i)%R
    by (unfold angle, theta, Rdiv; ring).
  replace (angle i * 3)%R with (3 * theta i)%R
    by (unfold angle, theta, Rdiv; ring).
  now rewrite Rplus_assoc.
Qed.

Lemma int_of_real_truncated x : (0 <= x)%R -> truncated x (int_of_real x).
Proof.
  intros Hx. unfold truncated, int_of_real.
  destruct (Rle_dec 0 x); [|contradiction].
  pose proof (base_Int_part x). lra.
Qed.

Lemma int_of_real_range x (lo hi : Z) :
  (0 <= IZR lo)%R -> (IZR lo <= x <= IZR hi)%R -> lo <= int_of_real x <= hi.
Proof.
  intros Hlo Hx.
  destruct (int_of_real_truncated x ltac:(lra)) as [H1 H2].
  split.
  - assert (IZR (lo - 1) < IZR (int_of_real x))%R
      by (rewrite minus_IZR; lra).
    apply lt_IZR in H. lia.
  - apply le_IZR. lra.
Qed.

(** The sample the loop appends at step [i]. *)
Lemma generated_sample (m : Measurements Q) c i :
  center m = Some c -> 0 <= i < 1000 ->
  nth (Z.to_nat i) (_generate_radii_data m) 0 = int_of_real (radius i).
Proof.
  intros Hc Hi. rewrite (generate_radii_data_center m c Hc).
  rewrite (nth_indep _ 0 (int_of_real (radius 0)))
    by (rewrite length_map; pose proof (len_range 1000) as L;
        unfold len in L; lia).
  rewrite (map_nth (fun i => int_of_real (radius i))).
  now rewrite nth_range by lia.
Qed.

Lemma sqrt2_bounds : (1.41 < sqrt 2 < 1.42)%R.
Proof.
  pose proof (sqrt_lt_R0 2 ltac:(lra)) as Hpos.
  pose proof (sqrt_sqrt 2 ltac:(lra)) as Hsq.
  split; nra.
Qed.

(** The curve at 45 degrees: [1650 - 25 sqrt 2], about 1614.64. *)
Lemma curve_125 : (1614.5 < curve (theta 125) < 1615)%R.
Proof.
  unfold curve, theta.
  replace (2 * (2 * PI * 125 / 1000))%R with (PI / 2)%R by field.
  replace (3 * (2 * PI * 125 / 1000))%R with (3 * (PI / 4))%R by field.
  rewrite sin_PI2, cos_3PI4.
  pose proof sqrt2_bounds as Hs.
  pose proof (sqrt_sqrt 2 ltac:(lra)) as Hsq.
  assert (Hinv : (-1 / sqrt 2 = - sqrt 2 / 2)%R)
    by (field_simplify_eq; lra).
  rewrite Hinv. unfold clamp.
  rewrite Rmin_left by lra. rewrite Rmax_right by lra. lra.
Qed.

(** ** The properties of the frame processor *)

(** Claim C4.  For a measurement that has a center, the generated profile
    has exactly 1000 samples and each lies in [1500, 2700]. *)
Theorem profile_invariant (m : Measurements Q) c :
  center m = Some c ->
  len (_generate_radii_data m) = 1000 /\
  Forall (fun r => 1500 <= r <= 2700) (_generate_radii_data m).
Proof.
  intros Hc. rewrite (generate_radii_data_center m c Hc). split.
  - unfold len. rewrite length_map. apply (len_range 1000).
  - apply Forall_forall. intros r Hr. apply in_map_iff in Hr.
    destruct Hr as (i & <- & _).
    apply int_of_real_range; [lra|]. apply radius_range.
Qed.

(** Claim C5, as the code has it.  For a measurement that has a center, the
    profile has exactly 1000 samples, and sample [i] is the value of
    [clamp(1550 + 100 sin(2t) + 50 cos(3t), 1500, 2700)] at [t = 2 pi i/1000]
    with its fraction dropped: [int] truncates, it does not round to the
    nearest integer. *)
Theorem profile_truncates_curve (m : Measurements Q) c :
  center m = Some c ->
  samples_curve truncated (_generate_radii_data m).
Proof.
  intros Hc. split.
  - rewrite (generate_radii_data_center m c Hc).
    unfold len. rewrite length_map. apply (len_range 1000).
  - intros i Hi. rewrite (generated_sample m c i Hc Hi).
    rewrite <- radius_curve.
    apply int_of_real_truncated. pose proof (radius_range i). lra.
Qed.

(** [int] on a float drops the fraction. *)
Lemma int_of_float_integer_part q : integer_part q (int_of_float q).
Proof.
  destruct q as [n d]. unfold integer_part, int_of_float.
  cbn [Qnum Qden].
  pose proof (Z.quot_rem' n (Z.pos d)) as Hq.
  pose proof (Z.rem_bound_abs n (Z.pos d) ltac:(lia)) as Hb.
  unfold Qle, Qlt, Qminus, Qplus, Qopp, inject_Z. cbn [Qnum Qden].
  change (Z.pos (1 * 1)) with 1.
  set (k := n ÷ Z.pos d) in *. set (r := Z.rem n (Z.pos d)) in *.
  set (D := Z.pos d) in *. assert (HD : 0 < D) by (subst D; lia).
  split; intros H0.
  - assert (Hn : 0 <= n) by lia.
    pose proof (Z.rem_nonneg n D ltac:(lia) Hn) as H. fold r in H. nia.
  - assert (Hn : n <= 0) by lia.
    pose proof (Z.rem_nonpos n D ltac:(lia) Hn) as H. fold r in H. nia.
Qed.

(** Claim C8.  Extracting the measurements never raises: without a kept
    contour the measurement is empty; with one, there is no center when
    [M00] is zero, and otherwise the center is the pair of the quotients
    [M10/M00] and [M01/M00], each made an integer by [int], that is with its
    fraction dropped. *)
Theorem centroid_guarded self frame :
  exists m,
    _extract_measurements self frame = Ok m /\
    match scan_contours self with
    | [] => m = no_measurements
    | c :: cs =>
        let M := moments (max_key contourArea c cs) in
        if Qeq_bool (m00 M) 0 then center m = None
        else
          exists cx cy,
            center m = Some (cx, cy) /\
            cx = int_of_float (m10 M / m00 M) /\
            cy = int_of_float (m01 M / m00 M) /\
            integer_part (m10 M / m00 M) cx /\
            integer_part (m01 M / m00 M) cy
    end.
Proof.
  unfold _extract_measurements.
  destruct (scan_contours self) as [|c cs]; [eexists; split; reflexivity|].
  destruct (boundingRect (max_key contourArea c cs)) as [[[x y] w] h].
  cbv zeta. unfold truediv.
  destruct (Qeq_bool (m00 (moments (max_key contourArea c cs))) 0);
    cbn [negb bind]; eexists; (split; [reflexivity|]).
  - reflexivity.
  - cbn [center]. do 2 eexists. split; [reflexivity|].
    split; [reflexivity|]. split; [reflexivity|].
    split; apply int_of_float_integer_part.
Qed.

(** Claim C6.  When no contour of the image passes the acceptance test,
    [extract_scan_data] returns [None], a value and not an exception, and
    leaves the processor as it was; the stages on nothing detected return the
    empty measurement and the empty profile. *)
Theorem nothing_detected self now frame :
  Forall (fun contour => accepted contour = false)
    (findContours_EXTERNAL_SIMPLE
       (_preprocess_frame (cvtColor_BGR2GRAY frame))) ->
  extract_scan_data self now (Some frame) = (Ok None, self) /\
  _extract_measurements __init__ frame = Ok no_measurements /\
  _generate_radii_data no_measurements = [].
Proof.
  intros Hnone. split; [|split; reflexivity].
  unfold extract_scan_data, process_frame.
  rewrite detect_is_filter, (filter_none _ _ Hnone). reflexivity.
Qed.

(** Claim C7, as the code has it.  The processor keeps state: the contours
    of the last frame in which some were found stay in [scan_contours].
    What [extract_scan_data] returns does not depend on that state: two
    processors in any two states return the same result for the same frame
    and the same clock reading. *)
Theorem extraction_ignores_history self1 self2 now frame :
  fst (extract_scan_data self1 now frame)
  = fst (extract_scan_data self2 now frame).
Proof.
  unfold extract_scan_data. destruct frame as [f|]; [|reflexivity].
  unfold process_frame.
  destruct (truthy _); cbn [negb fst]; reflexivity.
Qed.

End ProcessorFacts.

(** ** The frame processor on sample frames *)

Section ProcessorSamples.

Import Py Data FrameProcessor Spec Samples.
Local Open Scope Z_scope.

Lemma profile_invariant_witness :
  len (_generate_radii_data measured) = 1000 /\
  Forall (fun r => 1500 <= r <= 2700) (_generate_radii_data measured).
Proof. apply (profile_invariant measured (875, 225)). reflexivity. Defined.

Lemma profile_truncates_curve_witness :
  samples_curve truncated (_generate_radii_data measured).
Proof.
  apply (profile_truncates_curve measured (875, 225)). reflexivity.
Defined.

Lemma nothing_detected_witness :
  extract_scan_data (cv := drawing) seen_outline [] (Some frame_with_speck)
  = (Ok None, seen_outline) /\
  _extract_measurements (cv := drawing) __init__ frame_with_speck
  = Ok no_measurements /\
  _generate_radii_data no_measurements = [].
Proof.
  apply (nothing_detected (cv := drawing) seen_outline [] frame_with_speck).
  repeat constructor.
Defined.

(** A frame with an outline is detected and measured. *)
Example extract_outline :
  fst (extract_scan_data (cv := drawing) __init__ [] (Some frame_with_outline))
  = Ok (Some (mkScanData (cv := drawing) [] measured
                (_generate_radii_data measured) [outline] (1080, 1920, 3))).
Proof. reflexivity. Qed.

(** A kept contour without area gives a measurement without center. *)
Example extract_scratch :
  _extract_measurements (cv := drawing) seen_scratch frame_with_speck
  = Ok (mkMeasurements (Some 41) (Some 1) (Some (Qmake 0 2)) None
          (Some (inject_Z 80))).
Proof. reflexivity. Qed.

(** [int] drops the fraction on either side of zero. *)
Example int_of_float_samples :
  int_of_float (Qmake 7 2) = 3 /\ int_of_float (Qmake (-7) 2) = -3 /\
  int_of_float (Qmake 407370150 930600) = 437.
Proof. repeat split; reflexivity. Qed.

(** The centroid of the outline: [M10/M00] is 875.5 and [M01/M00] is 225. *)
Example centroid_of_outline :
  let M := moments (OpenCV := drawing) outline in
  (m10 M / m00 M == 1751 # 2)%Q /\ (m01 M / m00 M == 225 # 1)%Q /\
  center measured = Some (875, 225).
Proof. cbv zeta. repeat split; reflexivity. Qed.

(** Processing a frame changes the processor. *)
Example processing_leaves_a_trace :
  snd (process_frame (cv := drawing) __init__ (Some frame_with_outline))
  = seen_outline.
Proof. reflexivity. Qed.

(** Claim C7, as stated, fails: the measurement step answers from the
    contours the processor has kept, so a fresh processor and one that has
    seen an outline measure the same frame differently. *)
Lemma measuring_depends_on_history :
  ~ state_free (H := drawing) __init__ seen_outline frame_with_speck.
Proof.
  unfold state_free. intros [_ H]. vm_compute in H. discriminate H.
Qed.

(** The sample at 45 degrees is 1614, the curve being about 1614.64. *)
Example sample_125 : nth 125 (_generate_radii_data measured) 0 = 1614.
Proof.
  change 125%nat with (Z.to_nat 125).
  rewrite (generated_sample measured (875, 225) 125 eq_refl) by lia.
  rewrite radius_curve. pose proof curve_125 as Hc.
  destruct (int_of_real_truncated (curve (theta 125)) ltac:(lra)) as [H1 H2].
  assert (Hlo : (IZR 1613 < IZR (int_of_real (curve (theta 125))))%R) by lra.
  assert (Hhi : (IZR (int_of_real (curve (theta 125))) < IZR 1615)%R) by lra.
  apply lt_IZR in Hlo, Hhi. lia.
Qed.

(** Claim C5, as stated, fails at sample 125: the curve is above 1614.5
    there, its nearest integer is 1615, and the profile holds 1614. *)
Lemma profile_not_rounded :
  ~ samples_curve nearest (_generate_radii_data measured).
Proof.
  intros [_ H]. specialize (H 125 ltac:(lia)).
  change (Z.to_nat 125) with 125%nat in H. rewrite sample_125 in H.
  pose proof curve_125 as Hc. unfold nearest in H.
  unfold Rabs in H. destruct (Rcase_abs _); lra.
Qed.

End ProcessorSamples.

(** ** The container on sample files *)

Section CodecSamples.

Import Py Struct Data OMAGenerator Spec Samples.
Local Open Scope Z_scope.

(** The sample file is 114 bytes: 12 of fixed header, 4 + 26 of timestamp,
    4 + 28 of device, 32 of measurements and 8 of radii. *)
Example sample_content_len : len sample_content = 114.
Proof. reflexivity. Qed.

Example parse_sample : _parse_oma_content sample_content = Ok sample_record.
Proof. vm_compute. reflexivity. Qed.

(** Without radii the radius section is empty and so is the profile read
    back. *)
Example parse_no_radii :
  match _build_oma_content [] sample_scan_no_center with
  | Ok content =>
      len content = 106 /\
      option_map oma_radii (read_oma_file (Some content)) = Some []
  | Raise _ => False
  end.
Proof. vm_compute. split; reflexivity. Qed.

(** A file cut to 10 bytes, and a file shorter than the marker: both raise
    [struct.error]. *)
Example parse_cut_to_10 :
  _parse_oma_content (take 10 sample_content) = Raise struct_error.
Proof. vm_compute. reflexivity. Qed.

Example parse_shorter_than_marker :
  _parse_oma_content [x4f; x4d] = Raise struct_error.
Proof. vm_compute. reflexivity. Qed.

(** A cut file with another marker does not reach the length fields: the
    marker check raises first. *)
Example cut_with_other_marker :
  reads_past_end png_content /\
  _parse_oma_content png_content = Raise invalid_format.
Proof. split; vm_compute; reflexivity. Qed.

(** A timestamp length that reads past the end, the clipped text being cut
    in the middle of a character: the decoding error comes first. *)
Example parse_cut_in_character :
  _parse_oma_content
    (magic ++ [x01; x00; x00; x00] ++ [x00; x00; x00; x00]
       ++ [x08; x00; x00; x00] ++ [xe2; x82])
  = Raise UnicodeDecodeError.
Proof. vm_compute. reflexivity. Qed.

End CodecSamples.

(* ================================================================== *)
(** * Part III: further properties of the code *)
(* ================================================================== *)

(** ** The container: layout, failures and canonical form *)

Section ContainerLayout.

Import Py Struct Data OMAGenerator Spec Layout.
Local Open Scope Z_scope.
Local Open Scope py_scope.

Lemma encode_char_scalar c bc : Utf8.encode_char c = Ok bc -> Utf8.scalar c.
Proof.
  unfold Utf8.encode_char, Utf8.scalar.
  repeat match goal with
    | |- context [?a <? ?b] => destruct (Z.ltb_spec a b)
    | |- context [?a <=? ?b] => destruct (Z.leb_spec a b)
    end; cbn [andb]; intros E; try discriminate E; lia.
Qed.

Lemma encode_scalar s :
  forall bs, Utf8.encode s = Ok bs -> Forall Utf8.scalar s.
Proof.
  induction s as [|c t IH]; intros bs; cbn [Utf8.encode]; [constructor|].
  destruct (Utf8.encode_char c) as [bc|] eqn:Ec; [|discriminate].
  cbn [bind]. destruct (Utf8.encode t) as [bt|] eqn:Et; [|discriminate].
  intros _. constructor; [eapply encode_char_scalar; eassumption|].
  eapply IH; reflexivity.
Qed.

Lemma byte_tail b :
  Utf8.cont b = true -> byte_of_Z (0x80 + Utf8.payload b) = b.
Proof.
  intros _. unfold Utf8.payload.
  replace (0x80 + (Z_of_byte b - 0x80)) with (Z_of_byte b) by lia.
  apply byte_of_Z_of_byte.
Qed.

Lemma cont_range b : Utf8.cont b = true -> 0 <= Utf8.payload b < 64.
Proof.
  unfold Utf8.cont, Utf8.payload. intros H. apply andb_prop in H.
  destruct H as [H1 H2]. apply Z.leb_le in H1, H2. lia.
Qed.

Lemma encode_decode : forall n bs s,
  (List.length bs <= n)%nat -> Utf8.decode bs = Ok s -> Utf8.encode s = Ok bs.
Proof.
  induction n as [|n IH]; intros bs s Hn.
  - destruct bs; [|simpl in Hn; lia].
    cbn [Utf8.decode]. intros E; inversion E; reflexivity.
  - destruct bs as [|b0 r0]; cbn [Utf8.decode].
    { intros E; inversion E; reflexivity. }
    pose proof (Z_of_byte_range b0) as Hr0.
    pose proof (byte_of_Z_of_byte b0) as Hb0.
    simpl in Hn.
    destruct (Z.ltb_spec (Z_of_byte b0) 0x80).
    { destruct (Utf8.decode r0) as [r|] eqn:Er; [|discriminate].
      cbn [bind]. intros E; inversion E; subst; clear E.
      cbn [Utf8.encode]. rewrite (IH r0 r) by (assumption || lia).
      unfold Utf8.encode_char.
      destruct (Z.ltb_spec (Z_of_byte b0) 0); [lia|].
      destruct (Z.ltb_spec (Z_of_byte b0) 0x80); [|lia].
      cbn [bind app]. now rewrite Hb0. }
    destruct (Z.ltb_spec (Z_of_byte b0) 0xC2); [discriminate|].
    destruct (Z.ltb_spec (Z_of_byte b0) 0xE0).
    { destruct r0 as [|b1 r1]; [discriminate|].
      destruct (Utf8.cont b1) eqn:C1; [|discriminate].
      destruct (Utf8.decode r1) as [r|] eqn:Er; [|discriminate].
      cbn [bind]. intros E; inversion E; subst; clear E.
      pose proof (cont_range _ C1) as P1.
      set (c := (Z_of_byte b0 - 0xC0) * 64 + Utf8.payload b1).
      cbn [Utf8.encode]. rewrite (IH r1 r) by (assumption || simpl in Hn; lia).
      unfold Utf8.encode_char.
      destruct (Z.ltb_spec c 0); [subst c; lia|].
      destruct (Z.ltb_spec c 0x80); [subst c; lia|].
      destruct (Z.ltb_spec c 0x800); [|subst c; lia].
      cbn [bind app].
      replace (c / 64) with (Z_of_byte b0 - 0xC0)
        by (subst c; Z.div_mod_to_equations; lia).
      replace (c mod 64) with (Utf8.payload b1)
        by (subst c; Z.div_mod_to_equations; lia).
      replace (0xC0 + (Z_of_byte b0 - 0xC0)) with (Z_of_byte b0) by lia.
      now rewrite Hb0, (byte_tail _ C1). }
    destruct (Z.ltb_spec (Z_of_byte b0) 0xF0).
    { destruct r0 as [|b1 [|b2 r2]]; try discriminate.
      set (c := (Z_of_byte b0 - 0xE0) * 4096 + Utf8.payload b1 * 64
                + Utf8.payload b2).
      destruct (Utf8.cont b1) eqn:C1; [|discriminate].
      destruct (Utf8.cont b2) eqn:C2; [|discriminate].
      cbn [andb].
      destruct (Z.leb_spec 0x800 c); [|discriminate].
      cbn [andb].
      destruct ((0xD800 <=? c) && (c <=? 0xDFFF)) eqn:Hs; [discriminate|].
      cbn [negb].
      destruct (Utf8.decode r2) as [r|] eqn:Er; [|discriminate].
      cbn [bind]. intros E; inversion E; subst; clear E.
      pose proof (cont_range _ C1) as P1. pose proof (cont_range _ C2) as P2.
      cbn [Utf8.encode]. rewrite (IH r2 r) by (assumption || simpl in Hn; lia).
      unfold Utf8.encode_char. fold c.
      destruct (Z.ltb_spec c 0); [lia|].
      destruct (Z.ltb_spec c 0x80); [lia|].
      destruct (Z.ltb_spec c 0x800); [lia|].
      destruct (Z.ltb_spec c 0x10000); [|subst c; lia].
      rewrite Hs. cbn [bind app].
      replace (c / 4096) with (Z_of_byte b0 - 0xE0)
        by (subst c; Z.div_mod_to_equations; lia).
      replace ((c / 64) mod 64) with (Utf8.payload b1)
        by (subst c; Z.div_mod_to_equations; lia).
      replace (c mod 64) with (Utf8.payload b2)
        by (subst c; Z.div_mod_to_equations; lia).
      replace (0xE0 + (Z_of_byte b0 - 0xE0)) with (Z_of_byte b0) by lia.
      now rewrite Hb0, (byte_tail _ C1), (byte_tail _ C2). }
    destruct (Z.ltb_spec (Z_of_byte b0) 0xF5); [|discriminate].
    destruct r0 as [|b1 [|b2 [|b3 r3]]]; try discriminate.
    set (c := (Z_of_byte b0 - 0xF0) * 262144 + Utf8.payload b1 * 4096
              + Utf8.payload b2 * 64 + Utf8.payload b3).
    destruct (Utf8.cont b1) eqn:C1; [|discriminate].
    destruct (Utf8.cont b2) eqn:C2; [|discriminate].
    destruct (Utf8.cont b3) eqn:C3; [|discriminate].
    cbn [andb].
    destruct (Z.leb_spec 0x10000 c); [|discriminate].
    destruct (Z.leb_spec c 0x10FFFF); [|discriminate].
    cbn [andb].
    destruct (Utf8.decode r3) as [r|] eqn:Er; [|discriminate].
    cbn [bind]. intros E; inversion E; subst; clear E.
    pose proof (cont_range _ C1) as P1. pose proof (cont_range _ C2) as P2.
    pose proof (cont_range _ C3) as P3.
    cbn [Utf8.encode]. rewrite (IH r3 r) by (assumption || simpl in Hn; lia).
    unfold Utf8.encode_char. fold c.
    destruct (Z.ltb_spec c 0); [lia|].
    destruct (Z.ltb_spec c 0x80); [lia|].
    destruct (Z.ltb_spec c 0x800); [lia|].
    destruct (Z.ltb_spec c 0x10000); [lia|].
    destruct (Z.ltb_spec c 0x110000); [|lia].
    cbn [bind app].
    replace (c / 262144) with (Z_of_byte b0 - 0xF0)
      by (subst c; Z.div_mod_to_equations; lia).
    replace ((c / 4096) mod 64) with (Utf8.payload b1)
      by (subst c; Z.div_mod_to_equations; lia).
    replace ((c / 64) mod 64) with (Utf8.payload b2)
      by (subst c; Z.div_mod_to_equations; lia).
    replace (c mod 64) with (Utf8.payload b3)
      by (subst c; Z.div_mod_to_equations; lia).
    replace (0xF0 + (Z_of_byte b0 - 0xF0)) with (Z_of_byte b0) by lia.
    now rewrite Hb0, (byte_tail _ C1), (byte_tail _ C2), (byte_tail _ C3).
Qed.

Lemma firstn_split {A : Type} (p q : nat) : forall m : list A,
  firstn p m ++ firstn q (skipn p m) = firstn (p + q) m.
Proof.
  induction p as [|p IH]; intros m; [reflexivity|].
  destruct m as [|x t]; [now rewrite !firstn_nil|].
  cbn [firstn skipn Nat.add app]. now rewrite IH.
Qed.

Lemma slice_cat {A : Type} (l : list A) a b c :
  0 <= a <= b -> b <= c -> slice l a b ++ slice l b c = slice l a c.
Proof.
  intros Hab Hbc. unfold slice. rewrite !take_firstn, !drop_skipn.
  replace (Z.to_nat b) with (Z.to_nat (b - a) + Z.to_nat a)%nat by lia.
  rewrite <- skipn_skipn.
  replace (Z.to_nat (c - a)) with (Z.to_nat (b - a) + Z.to_nat (c - b))%nat
    by lia.
  apply firstn_split.
Qed.

Lemma slice_0 {A : Type} (l : list A) n : slice l 0 n = take n l.
Proof.
  unfold slice. rewrite Z.sub_0_r. f_equal.
  rewrite drop_skipn. reflexivity.
Qed.

Lemma slice_whole {A : Type} (l : list A) n : len l = n -> slice l 0 n = l.
Proof. intros <-. rewrite slice_0. apply take_all. lia. Qed.

Lemma le_bytes_le_int_len n buf :
  len buf = Z.of_nat n -> le_bytes n (le_int buf) = buf.
Proof.
  intros H. replace n with (List.length buf) by (unfold len in H; lia).
  apply le_bytes_le_int.
Qed.

Lemma le_int_u n buf :
  len buf = Z.of_nat n -> 0 <= le_int buf < 2 ^ (8 * Z.of_nat n).
Proof. intros <-. apply le_int_range. Qed.

Lemma unpack_4I_inv buf w h cx cy :
  unpack_4I buf = Ok (w, h, cx, cy) ->
  u32 w /\ u32 h /\ u32 cx /\ u32 cy /\
  buf = le_bytes 4 w ++ le_bytes 4 h ++ le_bytes 4 cx ++ le_bytes 4 cy.
Proof.
  unfold unpack_4I, u32.
  destruct (Z.eqb_spec (len buf) 16) as [L|]; [|discriminate].
  intros E; inversion E; subst; clear E.
  assert (L0 : len (slice buf 0 4) = 4) by (rewrite len_slice; lia).
  assert (L1 : len (slice buf 4 8) = 4) by (rewrite len_slice; lia).
  assert (L2 : len (slice buf 8 12) = 4) by (rewrite len_slice; lia).
  assert (L3 : len (slice buf 12 16) = 4) by (rewrite len_slice; lia).
  pose proof (le_int_u 4 _ L0). pose proof (le_int_u 4 _ L1).
  pose proof (le_int_u 4 _ L2). pose proof (le_int_u 4 _ L3).
  change (8 * Z.of_nat 4) with 32 in *.
  repeat (split; [lia|]).
  rewrite !(le_bytes_le_int_len 4) by assumption.
  rewrite (slice_cat buf 8 12 16), (slice_cat buf 4 8 16),
    (slice_cat buf 0 4 16) by lia.
  symmetry. now apply slice_whole.
Qed.

Lemma unpack_2d_inv buf a p :
  unpack_2d buf = Ok (a, p) ->
  float64_ok a /\ float64_ok p /\ buf = pack_2d a p.
Proof.
  unfold unpack_2d, float64_ok, pack_2d.
  destruct (Z.eqb_spec (len buf) 16) as [L|]; [|discriminate].
  intros E; inversion E; subst; clear E. cbn [float64_bits].
  assert (L0 : len (slice buf 0 8) = 8) by (rewrite len_slice; lia).
  assert (L1 : len (slice buf 8 16) = 8) by (rewrite len_slice; lia).
  pose proof (le_int_u 8 _ L0). pose proof (le_int_u 8 _ L1).
  change (8 * Z.of_nat 8) with 64 in *.
  repeat (split; [lia|]).
  rewrite !(le_bytes_le_int_len 8) by assumption.
  rewrite (slice_cat buf 0 8 16) by lia.
  symmetry. now apply slice_whole.
Qed.

Lemma le_int16s_inv : forall n buf,
  List.length buf = (2 * n)%nat ->
  pack_nH (le_int16s buf) = Ok buf /\
  List.length (le_int16s buf) = n /\
  Forall u16 (le_int16s buf).
Proof.
  induction n as [|n IH]; intros buf Hn.
  - destruct buf; [|discriminate]. repeat split. constructor.
  - destruct buf as [|b0 [|b1 t]]; try (simpl in Hn; lia).
    cbn [le_int16s]. destruct (IH t) as (Hp & Hl & Hf); [simpl in Hn; lia|].
    pose proof (le_int_range [b0; b1]) as Hr.
    change (8 * len [b0; b1]) with 16 in Hr.
    cbn [pack_nH]. unfold pack_H.
    rewrite pack_uint_Ok by (change (8 * Z.of_nat 2) with 16; lia).
    cbn [bind]. rewrite Hp. cbn [bind].
    rewrite (le_bytes_le_int_len 2 [b0; b1]) by reflexivity.
    split; [reflexivity|]. split; [simpl; lia|].
    constructor; [exact Hr|exact Hf].
Qed.

Lemma unpack_nH_inv n buf rs :
  unpack_nH n buf = Ok rs ->
  pack_nH rs = Ok buf /\ len rs = n /\ Forall u16 rs.
Proof.
  unfold unpack_nH.
  destruct (Z.eqb_spec (len buf) (2 * n)) as [L|]; [|discriminate].
  intros E; inversion E; subst; clear E.
  pose proof (len_nonneg buf).
  destruct (le_int16s_inv (Z.to_nat n) buf) as (Hp & Hl & Hf).
  { unfold len in L. lia. }
  split; [exact Hp|]. split; [unfold len; lia|exact Hf].
Qed.

Lemma encode_char_len_eq c bc :
  Utf8.encode_char c = Ok bc -> len bc = char_len c.
Proof.
  unfold Utf8.encode_char, char_len.
  repeat match goal with
    | |- context [?a <? ?b] => destruct (Z.ltb_spec a b)
    | |- context [if ?t then _ else _] => destruct t
    end; intros E; inversion E; subst; try reflexivity; lia.
Qed.

Lemma encode_utf8_len s : forall bs,
  Utf8.encode s = Ok bs -> len bs = utf8_len s.
Proof.
  induction s as [|c t IH]; intros bs; cbn [Utf8.encode utf8_len fold_right].
  - intros E; inversion E; reflexivity.
  - destruct (Utf8.encode_char c) as [bc|] eqn:Ec; [|discriminate].
    cbn [bind]. destruct (Utf8.encode t) as [bt|] eqn:Et; [|discriminate].
    cbn [bind]. intros E; inversion E; subst; clear E.
    rewrite len_app, (encode_char_len_eq _ _ Ec), (IH bt eq_refl).
    reflexivity.
Qed.

Lemma pack_4I_inv a b c d bs :
  pack_4I a b c d = Ok bs ->
  u32 a /\ u32 b /\ u32 c /\ u32 d /\
  bs = le_bytes 4 a ++ le_bytes 4 b ++ le_bytes 4 c ++ le_bytes 4 d.
Proof.
  unfold pack_4I, pack_I, u32.
  destruct (pack_uint 4 a) as [ba|] eqn:Ea; [|discriminate]. cbn [bind].
  destruct (pack_uint 4 b) as [bb|] eqn:Eb; [|discriminate]. cbn [bind].
  destruct (pack_uint 4 c) as [bc|] eqn:Ec; [|discriminate]. cbn [bind].
  destruct (pack_uint 4 d) as [bd|] eqn:Ed; [|discriminate]. cbn [bind].
  apply pack_uint_inv in Ea, Eb, Ec, Ed.
  change (8 * Z.of_nat 4) with 32 in *.
  destruct Ea as [? ->], Eb as [? ->], Ec as [? ->], Ed as [? ->].
  intros E; inversion E; subst. auto.
Qed.

Lemma build_inv now sd content :
  _build_oma_content now sd = Ok content ->
  let m := get (measurements sd) no_measurements in
  exists tb db rb,
    Utf8.encode (written_timestamp now sd) = Ok tb /\
    Utf8.encode device_info = Ok db /\
    pack_nH (written_radii sd) = Ok rb /\
    u32 (len tb) /\ u32 (len (written_radii sd)) /\
    u32 (get (width m) 0) /\ u32 (get (height m) 0) /\
    u32 (fst (get (center m) (0, 0))) /\ u32 (snd (get (center m) (0, 0))) /\
    content = image_of 1 tb db rb (len (written_radii sd))
                (get (width m) 0) (get (height m) 0)
                (fst (get (center m) (0, 0))) (snd (get (center m) (0, 0)))
                (get (area m) float64_zero) (get (perimeter m) float64_zero).
Proof.
  unfold _build_oma_content, written_timestamp, written_radii.
  destruct (_create_header now sd) as [hd|] eqn:Eh; [|discriminate].
  cbn [bind].
  destruct (_create_frame_data sd) as [fd|] eqn:Ef; [|discriminate].
  cbn [bind].
  destruct (_create_radius_data sd) as [rd|] eqn:Er; [|discriminate].
  cbn [bind]. intros E; inversion E; subst; clear E. cbv zeta.
  unfold _create_header, pack_I in Eh.
  destruct (pack_uint 4 1) as [bv|] eqn:Ev; [|discriminate]. cbn [bind] in Eh.
  destruct (pack_uint 4 (len (get (radii sd) []))) as [bn|] eqn:En;
    [|discriminate].
  cbn [bind] in Eh.
  destruct (Utf8.encode (get (timestamp sd) now)) as [tb|] eqn:Et;
    [|discriminate].
  cbn [bind] in Eh.
  destruct (pack_uint 4 (len tb)) as [bl|] eqn:El; [|discriminate].
  cbn [bind] in Eh.
  destruct (Utf8.encode device_info) as [db|] eqn:Ed; [|discriminate].
  cbn [bind] in Eh.
  destruct (pack_uint 4 (len db)) as [bd|] eqn:Edl; [|discriminate].
  cbn [bind] in Eh. inversion Eh; subst; clear Eh.
  apply pack_uint_inv in Ev, En, El, Edl.
  change (8 * Z.of_nat 4) with 32 in *.
  destruct Ev as [_ ->], En as [Hn ->], El as [Hl ->], Edl as [_ ->].
  unfold _create_frame_data in Ef.
  destruct (get (center (get (measurements sd) no_measurements)) (0, 0))
    as [cx cy] eqn:Hc.
  destruct (pack_4I _ _ cx cy) as [b4|] eqn:E4; [|discriminate].
  cbn [bind] in Ef. inversion Ef; subst; clear Ef.
  apply pack_4I_inv in E4. destruct E4 as (Hw & Hh & Hcx & Hcy & ->).
  assert (Hr : pack_nH (get (radii sd) []) = Ok rd).
  { unfold _create_radius_data in Er.
    destruct (get (radii sd) []); [exact Er|exact Er]. }
  exists tb, db, rd. unfold u32, image_of, pack_4s. cbn [fst snd].
  change (take 4 magic) with magic.
  unfold u32 in Hw, Hh, Hcx, Hcy.
  repeat split; auto; lia.
Qed.

Lemma build_intro now sd tb db rb :
  let m := get (measurements sd) no_measurements in
  Utf8.encode (written_timestamp now sd) = Ok tb ->
  Utf8.encode device_info = Ok db ->
  pack_nH (written_radii sd) = Ok rb ->
  u32 (len tb) -> u32 (len (written_radii sd)) ->
  u32 (get (width m) 0) -> u32 (get (height m) 0) ->
  u32 (fst (get (center m) (0, 0))) -> u32 (snd (get (center m) (0, 0))) ->
  _build_oma_content now sd
  = Ok (image_of 1 tb db rb (len (written_radii sd))
          (get (width m) 0) (get (height m) 0)
          (fst (get (center m) (0, 0))) (snd (get (center m) (0, 0)))
          (get (area m) float64_zero) (get (perimeter m) float64_zero)).
Proof.
  cbv zeta. unfold written_timestamp, written_radii, u32.
  intros Et Hde Hrb Hl Hn Hw Hh Hcx Hcy.
  destruct device_info_utf8 as (db' & Hde' & _ & Hdl).
  assert (db' = db) by congruence. subst db'.
  unfold _build_oma_content, _create_header, _create_frame_data,
    _create_radius_data, pack_4I, pack_I.
  rewrite (pack_uint_Ok 4 1) by (change (8 * Z.of_nat 4) with 32; lia).
  rewrite (pack_uint_Ok 4 (len _)) by (change (8 * Z.of_nat 4) with 32; lia).
  rewrite Et. cbn [bind].
  rewrite (pack_uint_Ok 4 (len tb)) by (change (8 * Z.of_nat 4) with 32; lia).
  rewrite Hde. cbn [bind].
  rewrite (pack_uint_Ok 4 (len db)) by (change (8 * Z.of_nat 4) with 32; lia).
  cbn [bind].
  destruct (get (center (get (measurements sd) no_measurements)) (0, 0))
    as [cx cy].
  cbn [fst snd] in *.
  rewrite !pack_uint_Ok by (change (8 * Z.of_nat 4) with 32; lia).
  cbn [bind]. unfold image_of, pack_4s. change (take 4 magic) with magic.
  destruct (get (radii sd) []) eqn:Hr.
  - cbn [pack_nH] in Hrb. inversion Hrb; subst. reflexivity.
  - rewrite Hrb. reflexivity.
Qed.

Ltac fold_offsets H :=
  change (0 + 4 + 4 + 4 + 4) with 16 in H;
  change (0 + 4 + 4 + 4) with 12 in H;
  change (0 + 4 + 4) with 8 in H;
  change (0 + 4) with 4 in H.

Ltac parse_steps H :=
  unfold _parse_oma_content in H; cbv zeta in H; fold_offsets H;
  let step := (cbn [bind] in H) in
  destruct (unpack_4s (slice _ 0 4)) as [mg|] eqn:E0; [|discriminate H];
  step;
  destruct (list_eq_dec Strings.Byte.byte_eq_dec mg magic) as [Hmagic|];
    [|discriminate H];
  cbn [negb] in H;
  destruct (unpack_I (slice _ 4 8)) as [ver|] eqn:E1; [|discriminate H];
  step;
  destruct (unpack_I (slice _ 8 12)) as [nr|] eqn:E2; [|discriminate H];
  step;
  destruct (unpack_I (slice _ 12 16)) as [tl|] eqn:E3; [|discriminate H];
  step;
  destruct (Utf8.decode (slice _ 16 (16 + tl))) as [ts|] eqn:E4;
    [|discriminate H];
  step;
  destruct (unpack_I (slice _ (16 + tl) (16 + tl + 4))) as [dl|] eqn:E5;
    [|discriminate H];
  step;
  destruct (Utf8.decode (slice _ (16 + tl + 4) (16 + tl + 4 + dl)))
    as [dev|] eqn:E6; [|discriminate H];
  step;
  destruct (unpack_4I (slice _ (16 + tl + 4 + dl) (16 + tl + 4 + dl + 16)))
    as [[[[w h] cx] cy]|] eqn:E7; [|discriminate H];
  step;
  destruct (unpack_2d (slice _ (16 + tl + 4 + dl + 16)
                         (16 + tl + 4 + dl + 16 + 16)))
    as [[a p]|] eqn:E8; [|discriminate H];
  step;
  destruct (unpack_nH nr (slice _ (16 + tl + 4 + dl + 16 + 16)
                            (16 + tl + 4 + dl + 16 + 16 + nr * 2)))
    as [rs|] eqn:E9; [|discriminate H];
  step.

Lemma parse_layout content d :
  _parse_oma_content content = Ok d ->
  exists tb db rb w h cx cy a p,
    take (declared_size content) content
    = image_of (oma_version d) tb db rb (len (oma_radii d)) w h cx cy a p /\
    oma_measurements d
    = mkMeasurements (Some w) (Some h) (Some a) (Some (cx, cy)) (Some p) /\
    Utf8.decode tb = Ok (oma_timestamp d) /\
    Utf8.decode db = Ok (oma_device_info d) /\
    pack_nH (oma_radii d) = Ok rb /\
    len tb = declared_timestamp_len content /\
    len db = declared_device_len content /\
    len (oma_radii d) = declared_num_radii content /\
    u32 (oma_version d) /\ u32 (len tb) /\ u32 (len db) /\
    u32 (len (oma_radii d)) /\
    u32 w /\ u32 h /\ u32 cx /\ u32 cy /\ float64_ok a /\ float64_ok p /\
    Forall u16 (oma_radii d).
Proof.
  intros H. pose proof (parse_Ok_bounds _ _ H) as (Htl & Hdl & Hnr & Hlen).
  unfold declared_size. revert Htl Hdl Hnr Hlen.
  unfold declared_device_len, declared_timestamp_len, declared_num_radii,
    u32_at.
  change (8 + 4) with 12. change (12 + 4) with 16.
  intros Htl Hdl Hnr Hlen.
  parse_steps H.
  apply unpack_4s_inv in E0. destruct E0 as [L0 ->].
  apply unpack_uint_inv in E1, E2, E3, E5.
  destruct E1 as [L1 ->], E2 as [L2 ->], E3 as [L3 ->], E5 as [L5 ->].
  change (Z.of_nat 4) with 4 in *.
  set (tl := le_int (slice content 12 16)) in *.
  set (dl := le_int (slice content (16 + tl) (16 + tl + 4))) in *.
  set (nr := le_int (slice content 8 12)) in *.
  apply unpack_4I_inv in E7. destruct E7 as (Hw & Hh & Hcx & Hcy & E7).
  apply unpack_2d_inv in E8. destruct E8 as (Ha & Hp & E8).
  apply unpack_nH_inv in E9. destruct E9 as (Hrb & Hrl & Hrs).
  inversion H; subst d; clear H.
  cbn [oma_version oma_timestamp oma_device_info oma_measurements oma_radii].
  exists (slice content 16 (16 + tl)),
    (slice content (16 + tl + 4) (16 + tl + 4 + dl)),
    (slice content (16 + tl + 4 + dl + 16 + 16)
       (16 + tl + 4 + dl + 16 + 16 + nr * 2)),
    w, h, cx, cy, a, p.
  assert (Ltb : len (slice content 16 (16 + tl)) = tl)
    by (rewrite len_slice; lia).
  assert (Ldb : len (slice content (16 + tl + 4) (16 + tl + 4 + dl)) = dl)
    by (rewrite len_slice; lia).
  assert (U1 := le_int_u 4 _ L1). assert (U2 := le_int_u 4 _ L2).
  assert (U3 := le_int_u 4 _ L3). assert (U5 := le_int_u 4 _ L5).
  change (8 * Z.of_nat 4) with 32 in *. fold tl in U3. fold dl in U5.
  fold nr in U2.
  split.
  { unfold image_of. rewrite Ltb, Ldb, Hrl, <- E7, <- E8.
    rewrite <- Hmagic.
    unfold tl at 2, dl at 2, nr at 2.
    rewrite !(le_bytes_le_int_len 4) by assumption.
    rewrite <- slice_0.
    repeat rewrite <- app_assoc.
    rewrite !slice_cat by lia.
    f_equal. lia. }
  unfold u32 in *. unfold float64_ok in *. rewrite Ltb, Ldb, Hrl.
  repeat split; auto; lia.
Qed.

Ltac len_norm :=
  repeat rewrite len_app; repeat rewrite len_le_bytes;
  repeat rewrite len_cons; repeat rewrite len_nil;
  change (len magic) with 4.

Ltac app_norm := repeat rewrite <- app_assoc; reflexivity.

Ltac read_field pre x rest :=
  match goal with
  | |- context [slice ?c ?a ?b] =>
      replace (slice c a b) with x
        by (symmetry; apply (slice_at pre x rest);
            [subst; app_norm | len_norm; lia | len_norm; lia])
  end.

(** The parser reads a file back field by field, whatever its version and
    device text. *)
Lemma parse_image_of version tb db rb n w h cx cy a p ts dev :
  Utf8.decode tb = Ok ts -> Utf8.decode db = Ok dev ->
  u32 version -> u32 (len tb) -> u32 (len db) -> u32 n ->
  u32 w -> u32 h -> u32 cx -> u32 cy -> float64_ok a -> float64_ok p ->
  len rb = 2 * n ->
  forall suffix,
  _parse_oma_content (image_of version tb db rb n w h cx cy a p ++ suffix)
  = Ok (mkOMAContent version ts dev
          (mkMeasurements (Some w) (Some h) (Some a) (Some (cx, cy))
             (Some p))
          (le_int16s rb)).
Proof.
  unfold u32. intros Htd Hdd Hv Htl Hdl Hn Hw Hh Hcx Hcy Ha Hp Hrl suffix.
  set (w4 := le_bytes 4 w ++ le_bytes 4 h ++ le_bytes 4 cx ++ le_bytes 4 cy).
  set (d2 := pack_2d a p).
  assert (Hw4 : len w4 = 16) by (subst w4; len_norm; lia).
  assert (Hd2 : len d2 = 16) by (subst d2; unfold pack_2d; len_norm; lia).
  remember (image_of version tb db rb n w h cx cy a p ++ suffix)
    as content eqn:Hcontent.
  unfold image_of in Hcontent. fold w4 d2 in Hcontent.
  unfold _parse_oma_content. cbv zeta.
  read_field (@nil byte) magic
    (le_bytes 4 version ++ le_bytes 4 n ++ le_bytes 4 (len tb) ++ tb
       ++ le_bytes 4 (len db) ++ db ++ w4 ++ d2 ++ rb ++ suffix).
  change (unpack_4s magic) with (Ok magic). cbn [bind].
  destruct (list_eq_dec Strings.Byte.byte_eq_dec magic magic) as [_|Hne];
    [|congruence].
  cbn [negb].
  read_field magic (le_bytes 4 version)
    (le_bytes 4 n ++ le_bytes 4 (len tb) ++ tb
       ++ le_bytes 4 (len db) ++ db ++ w4 ++ d2 ++ rb ++ suffix).
  unfold unpack_I.
  rewrite unpack_uint_le_bytes by (change (8 * Z.of_nat 4) with 32; lia).
  cbn [bind].
  read_field (magic ++ le_bytes 4 version) (le_bytes 4 n)
    (le_bytes 4 (len tb) ++ tb ++ le_bytes 4 (len db) ++ db
       ++ w4 ++ d2 ++ rb ++ suffix).
  rewrite unpack_uint_le_bytes by (change (8 * Z.of_nat 4) with 32; lia).
  cbn [bind].
  read_field (magic ++ le_bytes 4 version ++ le_bytes 4 n)
    (le_bytes 4 (len tb))
    (tb ++ le_bytes 4 (len db) ++ db ++ w4 ++ d2 ++ rb ++ suffix).
  rewrite unpack_uint_le_bytes by (change (8 * Z.of_nat 4) with 32; lia).
  cbn [bind].
  read_field (magic ++ le_bytes 4 version ++ le_bytes 4 n
                ++ le_bytes 4 (len tb))
    tb (le_bytes 4 (len db) ++ db ++ w4 ++ d2 ++ rb ++ suffix).
  rewrite Htd. cbn [bind].
  read_field (magic ++ le_bytes 4 version ++ le_bytes 4 n
                ++ le_bytes 4 (len tb) ++ tb)
    (le_bytes 4 (len db)) (db ++ w4 ++ d2 ++ rb ++ suffix).
  rewrite unpack_uint_le_bytes by (change (8 * Z.of_nat 4) with 32; lia).
  cbn [bind].
  read_field (magic ++ le_bytes 4 version ++ le_bytes 4 n
                ++ le_bytes 4 (len tb) ++ tb ++ le_bytes 4 (len db))
    db (w4 ++ d2 ++ rb ++ suffix).
  rewrite Hdd. cbn [bind].
  read_field (magic ++ le_bytes 4 version ++ le_bytes 4 n
                ++ le_bytes 4 (len tb) ++ tb ++ le_bytes 4 (len db) ++ db)
    w4 (d2 ++ rb ++ suffix).
  subst w4. rewrite unpack_4I_le_bytes by (unfold u32; lia).
  cbn [bind].
  set (w4 := le_bytes 4 w ++ le_bytes 4 h ++ le_bytes 4 cx ++ le_bytes 4 cy)
    in *.
  read_field (magic ++ le_bytes 4 version ++ le_bytes 4 n
                ++ le_bytes 4 (len tb) ++ tb ++ le_bytes 4 (len db) ++ db
                ++ w4)
    d2 (rb ++ suffix).
  subst d2. rewrite unpack_2d_pack_2d by assumption. cbn [bind].
  set (d2 := pack_2d a p) in *.
  replace (slice content _ _) with rb.
  - unfold unpack_nH. rewrite Hrl, Z.eqb_refl. reflexivity.
  - symmetry.
    apply (slice_at (magic ++ le_bytes 4 version ++ le_bytes 4 n
                       ++ le_bytes 4 (len tb) ++ tb ++ le_bytes 4 (len db)
                       ++ db ++ w4 ++ d2) rb suffix).
    + subst content. app_norm.
    + len_norm. lia.
    + len_norm. lia.
Qed.

Lemma encode_Ok_decode s bs :
  Utf8.encode s = Ok bs -> Utf8.decode bs = Ok s /\ Forall Utf8.scalar s.
Proof.
  intros E. pose proof (encode_scalar _ _ E) as Hs.
  destruct (utf8_decode_encode s Hs) as (bs' & E' & D).
  rewrite E in E'. inversion E'; subst. split; [exact D|exact Hs].
Qed.

Lemma encode_Raise s e :
  Utf8.encode s = Raise e ->
  e = UnicodeEncodeError /\ ~ Forall Utf8.scalar s.
Proof.
  intros E. split.
  - revert e E. induction s as [|c t IH]; intros e; cbn [Utf8.encode];
      [discriminate|].
    destruct (Utf8.encode_char c) as [bc|e'] eqn:Ec; cbn [bind].
    + destruct (Utf8.encode t) as [bt|e''] eqn:Et; cbn [bind];
        [discriminate|].
      intros H; inversion H; subst. now apply IH.
    + intros H; inversion H; subst. revert Ec. unfold Utf8.encode_char.
      repeat match goal with
        | |- context [if ?b then _ else _] => destruct b
        end; congruence.
  - intros Hs. destruct (utf8_decode_encode s Hs) as (bs & E' & _).
    rewrite E in E'. discriminate E'.
Qed.

Lemma pack_uint_Raise n v e :
  pack_uint n v = Raise e ->
  e = struct_error /\ ~ 0 <= v < 2 ^ (8 * Z.of_nat n).
Proof.
  unfold pack_uint.
  destruct (Z.leb_spec 0 v); destruct (Z.ltb_spec v (2 ^ (8 * Z.of_nat n)));
    cbn [andb]; intros E; inversion E; split; (reflexivity || lia).
Qed.

Lemma pack_nH_Raise vs : forall e,
  pack_nH vs = Raise e -> e = struct_error /\ ~ Forall u16 vs.
Proof.
  induction vs as [|v t IH]; intros e; cbn [pack_nH]; [discriminate|].
  unfold pack_H. destruct (pack_uint 2 v) as [bv|e'] eqn:Ev; cbn [bind].
  - destruct (pack_nH t) as [bt|e''] eqn:Et; cbn [bind]; [discriminate|].
    intros H; inversion H; subst. destruct (IH e eq_refl) as [-> Hn].
    split; [reflexivity|]. intros Hf. inversion Hf; auto.
  - intros H; inversion H; subst. apply pack_uint_Raise in Ev.
    destruct Ev as [-> Hn]. split; [reflexivity|].
    intros Hf. inversion Hf; subst. apply Hn. exact H2.
Qed.

Lemma build_Ok_fits now sd content :
  _build_oma_content now sd = Ok content -> fits now sd.
Proof.
  intros H. destruct (build_inv _ _ _ H)
    as (tb & db & rb & Et & Ed & Er & Hl & Hn & Hw & Hh & Hcx & Hcy & _).
  unfold fits. cbv zeta in *.
  destruct (encode_Ok_decode _ _ Et) as [_ Hs].
  rewrite <- (encode_utf8_len _ _ Et).
  destruct (pack_nH_inv _ _ Er) as (Hf & _).
  repeat split; try assumption; try apply Hl; try apply Hn; try apply Hw;
    try apply Hh; try apply Hcx; try apply Hcy.
Qed.

Lemma fits_build_parse now sd :
  fits now sd ->
  exists content,
    _build_oma_content now sd = Ok content /\
    (floats_ok sd ->
     forall suffix,
       _parse_oma_content (content ++ suffix)
       = Ok (mkOMAContent 1 (written_timestamp now sd) device_info
               (written_measurements sd) (written_radii sd))).
Proof.
  unfold fits, floats_ok. cbv zeta.
  intros (Hs & Hl & Hw & Hh & Hcx & Hcy & Hn & Hrs).
  destruct (utf8_decode_encode _ Hs) as (tb & Et & Dt).
  destruct device_info_utf8 as (db & Ed & Dd & Ldb).
  destruct (pack_nH_Ok (written_radii sd)) as (rb & Er).
  { exact Hrs. }
  destruct (pack_nH_inv _ _ Er) as (_ & Lrb & Drb).
  rewrite <- (encode_utf8_len _ _ Et) in Hl.
  eexists. split.
  - apply (build_intro now sd tb db rb); assumption.
  - intros [Ha Hp] suffix.
    rewrite (parse_image_of 1 tb db rb _ _ _ _ _ _ _
               (written_timestamp now sd) device_info);
      try assumption; try (unfold u32; lia).
    rewrite Drb. unfold written_measurements.
    destruct (get (center _) (0, 0)). reflexivity.
Qed.

(** Property X1.  [_build_oma_content] returns a buffer exactly when every
    value fits its field: the timestamp is made of scalar values and its
    UTF-8 length fits 32 bits, width, height and both center coordinates fit
    32 bits, the number of radii fits 32 bits and each radius fits 16 bits.
    In every other case it raises. *)
Theorem build_succeeds_iff now sd :
  (exists content, _build_oma_content now sd = Ok content) <-> fits now sd.
Proof.
  split.
  - intros [content H]. eapply build_Ok_fits; eassumption.
  - intros H. destruct (fits_build_parse now sd H) as (content & Hb & _).
    eauto.
Qed.

(** Property X2.  The buffer built has no padding: its length is 80 bytes of
    fixed fields and device text, plus the UTF-8 length of the timestamp,
    plus two bytes a radius. *)
Theorem build_size now sd content :
  _build_oma_content now sd = Ok content ->
  len content
  = 80 + utf8_len (written_timestamp now sd) + 2 * len (written_radii sd).
Proof.
  intros H. destruct (build_inv _ _ _ H)
    as (tb & db & rb & Et & Ed & Er & _ & _ & _ & _ & _ & _ & ->).
  destruct device_info_utf8 as (db' & Ed' & _ & Ldb).
  assert (db' = db) by congruence. subst db'.
  destruct (pack_nH_inv _ _ Er) as (_ & Lrb & _).
  rewrite <- (encode_utf8_len _ _ Et).
  unfold image_of, pack_2d.
  repeat rewrite len_app. repeat rewrite len_le_bytes.
  change (len magic) with 4. rewrite Ldb, Lrb. lia.
Qed.

(** Property X3.  When [_build_oma_content] raises, the exception is
    [UnicodeEncodeError], and then the timestamp holds a code point that is
    not a scalar value, or it is [struct.error]; [create_oma_file] catches it
    and returns [None], whether the file is writable or not. *)
Theorem build_raises now sd e :
  _build_oma_content now sd = Raise e ->
  ((e = UnicodeEncodeError /\ ~ Forall Utf8.scalar (written_timestamp now sd))
   \/ e = struct_error) /\
  forall writable, create_oma_file writable now sd = None.
Proof.
  intros H. split; [|intros writable; unfold create_oma_file; now rewrite H].
  revert H. unfold _build_oma_content, written_timestamp.
  destruct (_create_header now sd) as [hd|e1] eqn:Eh; cbn [bind].
  - destruct (_create_frame_data sd) as [fd|e2] eqn:Ef; cbn [bind].
    + destruct (_create_radius_data sd) as [rd|e3] eqn:Er; cbn [bind];
        [discriminate|].
      intros H; inversion H; subst. right.
      unfold _create_radius_data in Er.
      destruct (get (radii sd) []) eqn:Hr; [discriminate|].
      now apply pack_nH_Raise in Er.
    + intros H; inversion H; subst. right.
      unfold _create_frame_data in Ef.
      destruct (get (center _) (0, 0)) as [cx cy].
      unfold pack_4I, pack_I in Ef.
      repeat match type of Ef with
        | context [pack_uint 4 ?v] =>
            let E := fresh "E" in
            destruct (pack_uint 4 v) eqn:E; cbn [bind] in Ef;
            [|inversion Ef; subst; now apply pack_uint_Raise in E]
        end.
      discriminate.
  - intros H; inversion H; subst. clear H.
    unfold _create_header, pack_I in Eh.
    destruct (pack_uint 4 1) eqn:E1; cbn [bind] in Eh;
      [|inversion Eh; subst; right; now apply pack_uint_Raise in E1].
    destruct (pack_uint 4 (len _)) eqn:E2; cbn [bind] in Eh;
      [|inversion Eh; subst; right; now apply pack_uint_Raise in E2].
    destruct (Utf8.encode (get (timestamp sd) now)) eqn:E3; cbn [bind] in Eh;
      [|inversion Eh; subst; left; now apply encode_Raise in E3].
    destruct (pack_uint 4 (len _)) eqn:E4 in Eh; cbn [bind] in Eh;
      [|inversion Eh; subst; right; now apply pack_uint_Raise in E4].
    destruct (Utf8.encode device_info) eqn:E5; cbn [bind] in Eh;
      [|destruct device_info_utf8 as (? & ? & _); congruence].
    destruct (pack_uint 4 (len _)) eqn:E6 in Eh; cbn [bind] in Eh;
      [discriminate|].
    inversion Eh; subst; right; now apply pack_uint_Raise in E6.
Qed.

Lemma build_parse now sd content :
  _build_oma_content now sd = Ok content -> floats_ok sd ->
  forall suffix,
    _parse_oma_content (content ++ suffix)
    = Ok (mkOMAContent 1 (written_timestamp now sd) device_info
            (written_measurements sd) (written_radii sd)).
Proof.
  intros Hb Hf. pose proof (build_Ok_fits _ _ _ Hb) as Hfit.
  destruct (fits_build_parse now sd Hfit) as (content' & Hb' & Hp).
  rewrite Hb in Hb'. inversion Hb'; subst. now apply Hp.
Qed.

(** Property X4.  Two dictionaries for which the same buffer is built have
    the same written values: timestamp, measurements with their defaults, and
    radii.  The file determines what was written. *)
Theorem build_injective now1 sd1 now2 sd2 content :
  floats_ok sd1 -> floats_ok sd2 ->
  _build_oma_content now1 sd1 = Ok content ->
  _build_oma_content now2 sd2 = Ok content ->
  written_timestamp now1 sd1 = written_timestamp now2 sd2 /\
  written_measurements sd1 = written_measurements sd2 /\
  written_radii sd1 = written_radii sd2.
Proof.
  intros F1 F2 B1 B2.
  pose proof (build_parse _ _ _ B1 F1 []) as P1.
  pose proof (build_parse _ _ _ B2 F2 []) as P2.
  rewrite P1 in P2.
  assert (Hrec : forall r1 r2 : OMAContent, Ok r1 = Ok r2 -> r1 = r2)
    by (intros r1 r2 E; now inversion E).
  apply Hrec in P2.
  split; [exact (f_equal oma_timestamp P2)|].
  split; [exact (f_equal oma_measurements P2)|].
  exact (f_equal oma_radii P2).
Qed.

(** Property X5.  Whatever buffer parses, the record read is well formed:
    the version fits 32 bits, timestamp and device are texts of scalar values
    whose UTF-8 lengths are the declared ones, the radii are as many as
    declared and each fits 16 bits, the five measurement keys are present
    with 32-bit integers and 64-bit doubles, and the buffer is at least as
    long as its header declares. *)
Theorem parsed_record_wellformed content d :
  _parse_oma_content content = Ok d ->
  u32 (oma_version d) /\
  Forall Utf8.scalar (oma_timestamp d) /\
  Forall Utf8.scalar (oma_device_info d) /\
  utf8_len (oma_timestamp d) = declared_timestamp_len content /\
  utf8_len (oma_device_info d) = declared_device_len content /\
  len (oma_radii d) = declared_num_radii content /\
  Forall u16 (oma_radii d) /\
  (exists w h a cx cy p,
     oma_measurements d
     = mkMeasurements (Some w) (Some h) (Some a) (Some (cx, cy)) (Some p) /\
     u32 w /\ u32 h /\ u32 cx /\ u32 cy /\ float64_ok a /\ float64_ok p) /\
  declared_size content <= len content.
Proof.
  intros H. pose proof (parse_Ok_bounds _ _ H) as (_ & _ & _ & Hlen).
  destruct (parse_layout _ _ H)
    as (tb & db & rb & w & h & cx & cy & a & p & _ & Hm & Dt & Dd & _
        & Ltb & Ldb & Lr & Hv & _ & _ & _ & Hw & Hh & Hcx & Hcy & Ha & Hp
        & Hrs).
  pose proof (encode_decode _ _ _ (Nat.le_refl _) Dt) as Et.
  pose proof (encode_decode _ _ _ (Nat.le_refl _) Dd) as Ed.
  rewrite <- (encode_utf8_len _ _ Et), <- (encode_utf8_len _ _ Ed).
  split; [exact Hv|].
  split; [eapply encode_scalar; eassumption|].
  split; [eapply encode_scalar; eassumption|].
  split; [exact Ltb|]. split; [exact Ldb|]. split; [exact Lr|].
  split; [exact Hrs|].
  split; [|exact Hlen].
  exists w, h, a, cx, cy, p. auto 10.
Qed.

(** Property X6.  A record read from a buffer of version 1 with the
    generator's device text, given back to the generator, is built into the
    bytes it was read from, up to the declared size: the format has one
    encoding for each record. *)
Theorem reencode_parsed now content d :
  _parse_oma_content content = Ok d ->
  oma_version d = 1 ->
  oma_device_info d = device_info ->
  _build_oma_content now (scan_of_content d)
  = Ok (take (declared_size content) content).
Proof.
  intros H Hv Hd.
  destruct (parse_layout _ _ H)
    as (tb & db & rb & w & h & cx & cy & a & p & Himg & Hm & Dt & Dd & Er
        & Ltb & Ldb & Lr & _ & Utb & _ & Ur & Hw & Hh & Hcx & Hcy & Ha & Hp
        & Hrs).
  pose proof (encode_decode _ _ _ (Nat.le_refl _) Dt) as Et.
  pose proof (encode_decode _ _ _ (Nat.le_refl _) Dd) as Ed.
  rewrite Hd in Ed. rewrite Himg, Hv.
  rewrite (build_intro now (scan_of_content d) tb db rb);
    unfold scan_of_content, written_timestamp, written_radii;
    cbn [timestamp measurements radii get]; rewrite ?Hm;
    cbn [width height center area perimeter get fst snd];
    try assumption.
  reflexivity.
Qed.

Lemma take_drop {A : Type} (l : list A) k : take k l ++ drop k l = l.
Proof. rewrite take_firstn, drop_skipn. apply firstn_skipn. Qed.

Lemma slice_take {A : Type} (l : list A) k a b :
  0 <= a -> b <= k -> b <= len l -> slice (take k l) a b = slice l a b.
Proof.
  intros Ha Hk Hl. rewrite <- (take_drop l k) at 2.
  symmetry. apply slice_app_l; [assumption|]. rewrite len_take. lia.
Qed.

(** Property X7.  A buffer that parses parses to the same record when cut
    to its declared size, and no longer parses when cut anywhere shorter. *)
Theorem parse_needs_declared_size content d :
  _parse_oma_content content = Ok d ->
  _parse_oma_content (take (declared_size content) content) = Ok d /\
  forall k, k < declared_size content ->
    exists e, _parse_oma_content (take k content) = Raise e.
Proof.
  intros H. split.
  - destruct (parse_layout _ _ H)
      as (tb & db & rb & w & h & cx & cy & a & p & Himg & Hm & Dt & Dd & Er
          & Ltb & Ldb & Lr & Uv & Utb & Udb & Ur & Hw & Hh & Hcx & Hcy & Ha
          & Hp & Hrs).
    destruct (pack_nH_inv _ _ Er) as (_ & Lrb & Drb).
    rewrite Himg, <- (app_nil_r (image_of _ _ _ _ _ _ _ _ _ _ _)).
    rewrite (parse_image_of _ tb db rb _ w h cx cy a p
               (oma_timestamp d) (oma_device_info d)); try assumption.
    rewrite Drb, <- Hm. destruct d; reflexivity.
  - intros k Hk.
    destruct (_parse_oma_content (take k content)) as [d'|e] eqn:E;
      [|eauto].
    exfalso.
    pose proof (parse_Ok_bounds _ _ H) as (Htl & Hdl & Hnr & Hlen).
    pose proof (parse_Ok_bounds _ _ E) as (Htl' & Hdl' & Hnr' & Hlen').
    unfold declared_size in Hk.
    revert Htl Hdl Hnr Hlen Htl' Hdl' Hnr' Hlen' Hk.
    unfold declared_device_len, declared_timestamp_len, declared_num_radii,
      u32_at.
    change (8 + 4) with 12. change (12 + 4) with 16.
    rewrite len_take.
    intros Htl Hdl Hnr Hlen Htl' Hdl' Hnr' Hlen' Hk.
    assert (Hk52 : 52 <= k) by lia.
    rewrite (slice_take content k 8 12) in * by lia.
    rewrite (slice_take content k 12 16) in * by lia.
    set (tl := le_int (slice content 12 16)) in *.
    rewrite (slice_take content k (16 + tl) (16 + tl + 4)) in * by lia.
    lia.
Qed.

(** Property X8.  [create_oma_file] writes a file exactly when the values
    fit and the file is writable, and [read_oma_file] reads back from what
    was written the written values under version 1 and the device text;
    when a value does not fit or the file cannot be written, [None] is
    returned. *)
Theorem file_roundtrip writable now sd :
  floats_ok sd ->
  match create_oma_file writable now sd with
  | Some content =>
      writable = true /\ fits now sd /\
      read_oma_file (Some content)
      = Some (mkOMAContent 1 (written_timestamp now sd) device_info
                (written_measurements sd) (written_radii sd))
  | None => writable = false \/ ~ fits now sd
  end.
Proof.
  intros Hf. unfold create_oma_file.
  destruct (_build_oma_content now sd) as [content|e] eqn:Hb.
  - destruct writable; [|now left].
    split; [reflexivity|].
    split; [eapply build_Ok_fits; eassumption|].
    unfold read_oma_file.
    rewrite <- (app_nil_r content), (build_parse _ _ _ Hb Hf []).
    reflexivity.
  - right. intros Hfit.
    destruct (fits_build_parse now sd Hfit) as (c & Hc & _).
    rewrite Hb in Hc. discriminate Hc.
Qed.

End ContainerLayout.

(** ** The frame processor over sequences of calls *)

Section ProcessorSessions.

Import Py Data FrameProcessor Spec Sessions.
Local Open Scope Z_scope.
Local Open Scope py_scope.

Context `{cv : OpenCV}.


Lemma gt_true x y : gt x y = true <-> (y < x)%Q.
Proof.
  unfold gt. rewrite negb_true_iff. split.
  - intros H. apply Qnot_le_lt. intros Hle.
    apply Qle_bool_iff in Hle. congruence.
  - intros H. destruct (Qle_bool x y) eqn:E; [|reflexivity].
    apply Qle_bool_iff in E. exfalso. eapply Qlt_not_le; eassumption.
Qed.

Lemma gt_false x y : gt x y = false <-> (x <= y)%Q.
Proof.
  unfold gt. rewrite negb_false_iff. apply Qle_bool_iff.
Qed.

(** [max(key=...)]: an item of the list whose key no other item exceeds. *)
Lemma max_key_spec {A : Type} (key : A -> Q) (xs : list A) : forall x,
  In (max_key key x xs) (x :: xs) /\
  (key x <= key (max_key key x xs))%Q /\
  forall c, In c xs -> (key c <= key (max_key key x xs))%Q.
Proof.
  unfold max_key. induction xs as [|y t IH]; intros x; cbn [fold_left].
  - split; [now left|]. split; [apply Qle_refl|]. intros c [].
  - destruct (gt (key y) (key x)) eqn:E.
    + apply gt_true in E. destruct (IH y) as (Hin & Hge & Hall).
      split; [right; exact Hin|]. split.
      * eapply Qle_trans; [apply Qlt_le_weak; exact E|exact Hge].
      * intros c [<-|Hc]; [exact Hge|now apply Hall].
    + apply gt_false in E. destruct (IH x) as (Hin & Hge & Hall).
      split; [destruct Hin as [<-|Hin]; [now left|right; now right]|].
      split; [exact Hge|].
      intros c [<-|Hc]; [eapply Qle_trans; eassumption|now apply Hall].
Qed.

Lemma accepted_spec contour :
  accepted contour = true <->
  (1000 < contourArea contour)%Q /\
  4 <= len (approxPolyDP contour (0.02 * arcLength contour true)%Q true) <= 8.
Proof.
  unfold accepted.
  destruct (gt (contourArea contour) 1000) eqn:E.
  - apply gt_true in E. rewrite andb_true_iff, Z.geb_le, Z.leb_le.
    intuition.
  - apply gt_false in E. split; [discriminate|].
    intros [H _]. exfalso. eapply Qlt_not_le; eassumption.
Qed.

(** Property X9.  The contours [_detect_frame_contours] returns are those
    found by OpenCV whose area exceeds 1000 and whose polygon, approximated
    within 2% of the perimeter, has 4 to 8 vertices; no other. *)
Theorem detected_contours processed_frame contour :
  In contour (_detect_frame_contours processed_frame) <->
  In contour (findContours_EXTERNAL_SIMPLE processed_frame) /\
  (1000 < contourArea contour)%Q /\
  4 <= len (approxPolyDP contour (0.02 * arcLength contour true)%Q true) <= 8.
Proof.
  rewrite detect_is_filter, filter_In, accepted_spec. reflexivity.
Qed.

Lemma process_frame_spec self frame :
  process_frame self (Some frame)
  = if truthy (detected frame)
    then (true, mkState (Some frame) (detected frame) (frame_measurements self))
    else (false, self).
Proof. reflexivity. Qed.

Lemma truthy_false {A : Type} (l : list A) : truthy l = false <-> l = [].
Proof. destruct l; split; (reflexivity || discriminate). Qed.

Lemma extract_state self now frame :
  snd (extract_scan_data self now frame) = snd (process_frame self frame).
Proof.
  unfold extract_scan_data. destruct frame as [f|]; [|reflexivity].
  destruct (process_frame self (Some f)) as [found self'].
  destruct found; reflexivity.
Qed.

Lemma process_frame_consistent self frame :
  consistent self -> consistent (snd (process_frame self frame)).
Proof.
  intros Hc. destruct frame as [f|]; [|exact Hc].
  rewrite process_frame_spec.
  destruct (truthy (detected f)) eqn:E; [|exact Hc].
  destruct Hc as (Hm & _ & _). cbn [snd]. unfold consistent.
  cbn [frame_measurements scan_contours last_processed_frame].
  split; [exact Hm|]. split.
  - unfold detected. rewrite detect_is_filter. apply Forall_forall.
    intros c Hc. now apply filter_In in Hc.
  - split; [reflexivity|]. intros H. rewrite H in E. discriminate.
Qed.

(** Property X10.  After any sequence of [process_frame] and
    [extract_scan_data] calls on a new processor, the kept contours are
    exactly those detected in [last_processed_frame], every one of them
    passed the acceptance test, they are empty only if no frame was ever
    accepted, and [frame_measurements] is still empty.  One more call
    replaces the kept frame and contours by the frame of the call and the
    contours detected in it when there are some, and leaves the processor
    as it was, earlier contours included, when the call has no frame or
    nothing is detected in its frame. *)
Theorem processor_invariant calls :
  consistent (after calls) /\
  forall c,
    after (calls ++ [c])
    = match call_frame c with
      | None => after calls
      | Some frame =>
          match detected frame with
          | [] => after calls
          | _ :: _ => mkState (Some frame) (detected frame) no_measurements
          end
      end.
Proof.
  assert (Hcons : forall s l, consistent s -> consistent (fold_left call l s)).
  { intros s l. revert s.
    induction l as [|c t IH]; intros s Hs; cbn [fold_left]; [exact Hs|].
    apply IH. destruct c as [frame|now frame]; cbn [call].
    - now apply process_frame_consistent.
    - rewrite extract_state. now apply process_frame_consistent. }
  assert (H0 : consistent __init__).
  { unfold consistent, __init__. cbn. auto. }
  split; [apply Hcons; exact H0|].
  intros c. unfold after. rewrite fold_left_app. cbn [fold_left].
  fold (after calls).
  assert (Hm : frame_measurements (after calls) = no_measurements)
    by (apply (Hcons __init__ calls H0)).
  assert (Hstep : call (after calls) c
                  = snd (process_frame (after calls) (call_frame c))).
  { destruct c as [frame|now frame]; cbn [call call_frame];
      [reflexivity|apply extract_state]. }
  rewrite Hstep. destruct (call_frame c) as [frame|]; [|reflexivity].
  rewrite process_frame_spec, Hm.
  destruct (detected frame); reflexivity.
Qed.

(** What [_extract_measurements] returns for kept contours [c :: cs]. *)
Lemma extract_measurements_cons self frame c cs :
  scan_contours self = c :: cs ->
  let main := max_key contourArea c cs in
  _extract_measurements self frame
  = Ok (mkMeasurements
          (Some (snd (fst (boundingRect main))))
          (Some (snd (boundingRect main)))
          (Some (contourArea main))
          (if Qeq_bool (m00 (moments main)) 0 then None
           else Some (int_of_float (m10 (moments main) / m00 (moments main)),
                      int_of_float (m01 (moments main) / m00 (moments main))))
          (Some (arcLength main true))).
Proof.
  intros Hs. cbv zeta. unfold _extract_measurements. rewrite Hs.
  destruct (boundingRect (max_key contourArea c cs)) as [[[x y] w] h].
  cbv zeta. unfold truediv. cbn [fst snd].
  destruct (Qeq_bool (m00 (moments (max_key contourArea c cs))) 0);
    reflexivity.
Qed.

(** [extract_scan_data] returns a value in every case, and [None] exactly
    when there is no frame or nothing is detected in it. *)
Lemma extract_scan_data_cases self now frame :
  (forall e, fst (extract_scan_data self now frame) <> Raise e) /\
  (fst (extract_scan_data self now frame) = Ok None <->
   match frame with
   | None => True
   | Some f => detected f = []
   end).
Proof.
  destruct frame as [f|]; [|split; [discriminate|now split]].
  unfold extract_scan_data. rewrite process_frame_spec.
  destruct (detected f) as [|c cs] eqn:Hd; cbn [truthy negb fst].
  - split; [discriminate|now split].
  - rewrite (extract_measurements_cons _ f c cs) by reflexivity.
    cbn [bind]. split; [discriminate|]. split; discriminate.
Qed.

Lemma generate_radii_data_len (m : Measurements Q) :
  len (_generate_radii_data m)
  = match center m with Some _ => 1000 | None => 0 end.
Proof.
  destruct (center m) as [c|] eqn:Hc.
  - rewrite (generate_radii_data_center m c Hc).
    unfold len. rewrite length_map. apply (len_range 1000).
  - destruct m as [w h a c p]. cbn [center] in Hc. subst c.
    unfold _generate_radii_data. cbn [center].
    destruct w, h, a, p; reflexivity.
Qed.

Lemma extract_Some_inv self now frame sd :
  fst (extract_scan_data self now frame) = Ok (Some sd) ->
  exists f,
    frame = Some f /\ detected f <> [] /\
    timestamp sd = now /\ contours sd = detected f /\
    frame_shape sd = shape f /\
    radii sd = _generate_radii_data (measurements sd) /\
    snd (extract_scan_data self now frame)
    = mkState (Some f) (detected f) (frame_measurements self).
Proof.
  destruct frame as [f|]; [|discriminate]. intros H. exists f.
  split; [reflexivity|]. revert H.
  unfold extract_scan_data. rewrite process_frame_spec.
  destruct (detected f) as [|c cs] eqn:Hd; cbn [truthy negb fst snd];
    [discriminate|].
  destruct (_extract_measurements _ f) as [m|]; cbn [bind]; [|discriminate].
  intros E; inversion E; subst sd; clear E.
  cbn [timestamp contours frame_shape radii measurements scan_contours].
  repeat split. discriminate.
Qed.

(** Property X12.  The scan data returned for a frame carries the clock
    reading, the contours detected in that frame and the shape of the frame;
    its measurements are those of a detected contour of largest area, whose
    area exceeds 1000: bounding-box width and height, area, closed perimeter,
    and the truncated centroid unless [M00] is zero. *)
Theorem extract_measures_largest self now frame sd :
  fst (extract_scan_data self now (Some frame)) = Ok (Some sd) ->
  timestamp sd = now /\
  contours sd = detected frame /\
  frame_shape sd = shape frame /\
  radii sd = _generate_radii_data (measurements sd) /\
  exists main,
    In main (detected frame) /\
    (forall c, In c (detected frame) ->
       (contourArea c <= contourArea main)%Q) /\
    (1000 < contourArea main)%Q /\
    width (measurements sd) = Some (snd (fst (boundingRect main))) /\
    height (measurements sd) = Some (snd (boundingRect main)) /\
    area (measurements sd) = Some (contourArea main) /\
    perimeter (measurements sd) = Some (arcLength main true) /\
    center (measurements sd)
    = if Qeq_bool (m00 (moments main)) 0 then None
      else Some (int_of_float (m10 (moments main) / m00 (moments main)),
                 int_of_float (m01 (moments main) / m00 (moments main))).
Proof.
  unfold extract_scan_data. rewrite process_frame_spec.
  destruct (detected frame) as [|c cs] eqn:Hd; cbn [truthy negb fst];
    [discriminate|].
  rewrite (extract_measurements_cons _ frame c cs) by reflexivity.
  cbn [bind scan_contours]. intros E; inversion E; subst sd; clear E.
  cbn [timestamp contours frame_shape radii measurements].
  repeat (split; [reflexivity|]).
  exists (max_key contourArea c cs).
  destruct (max_key_spec contourArea cs c) as (Hin & Hge & Hall).
  split; [exact Hin|]. split.
  { intros c' [<-|Hc']; [exact Hge|now apply Hall]. }
  split.
  { assert (Hacc : accepted (max_key contourArea c cs) = true).
    { assert (Hf : In (max_key contourArea c cs) (detected frame))
        by (rewrite Hd; exact Hin).
      unfold detected in Hf. rewrite detect_is_filter in Hf.
      now apply filter_In in Hf. }
    now apply accepted_spec in Hacc. }
  cbn [width height area perimeter center]. auto.
Qed.

(** Property X13.  The profile of returned scan data has 1000 samples when
    the measurements have a center and none when they have not. *)
Theorem extract_profile_length self now frame sd :
  fst (extract_scan_data self now (Some frame)) = Ok (Some sd) ->
  len (radii sd)
  = match center (measurements sd) with Some _ => 1000 | None => 0 end.
Proof.
  unfold extract_scan_data. rewrite process_frame_spec.
  destruct (truthy (detected frame)); cbn [negb fst]; [|discriminate].
  destruct (_extract_measurements _ frame) as [m|]; cbn [bind];
    [|discriminate].
  intros E; inversion E; subst sd. cbn [radii measurements].
  apply generate_radii_data_len.
Qed.

Lemma variation_range i : (-150 <= variation i <= 150)%R.
Proof.
  unfold variation.
  pose proof (SIN_bound (angle i * 2)) as Hs.
  pose proof (COS_bound (angle i * 3)) as Hc. lra.
Qed.

Lemma radius_upper i : (1500 <= radius i <= 1700)%R.
Proof.
  unfold radius, base_radius. pose proof (variation_range i) as Hv.
  rewrite py_max_Rmax, py_min_Rmin.
  rewrite Rmin_right by lra.
  unfold Rmax. destruct (Rle_dec _ _); lra.
Qed.

Lemma generated_radii_range (m : Measurements Q) :
  Forall (fun r => 1500 <= r <= 1700) (_generate_radii_data m).
Proof.
  destruct (center m) as [c|] eqn:Hc.
  - rewrite (generate_radii_data_center m c Hc).
    apply Forall_forall. intros r Hr. apply in_map_iff in Hr.
    destruct Hr as (i & <- & _).
    apply int_of_real_range; [lra|]. apply radius_upper.
  - pose proof (generate_radii_data_len m) as L. rewrite Hc in L.
    destruct (_generate_radii_data m); [constructor|].
    rewrite len_cons in L. pose proof (len_nonneg l). lia.
Qed.

(** Property X14.  Every sample of every generated profile lies between
    1500 and 1700: the curve never exceeds 1550 + 150, so the upper bound
    2700 of the clamp is never reached. *)
Theorem profile_below_1700 (m : Measurements Q) :
  Forall (fun r => 1500 <= r <= 1700) (_generate_radii_data m).
Proof. apply generated_radii_range. Qed.

(** Property X11.  [extract_scan_data] never raises, and it returns [None]
    exactly when it is given no frame or a frame in which no contour is
    detected. *)
Theorem extract_scan_data_result self now frame :
  (forall e, fst (extract_scan_data self now frame) <> Raise e) /\
  (fst (extract_scan_data self now frame) = Ok None <->
   match frame with
   | None => True
   | Some f => detected f = []
   end).
Proof. apply extract_scan_data_cases. Qed.

(** Property X15.  The profile does not depend on what was measured: any two
    measurements that have a center get the same profile. *)
Theorem profile_ignores_measurement (m1 m2 : Measurements Q) c1 c2 :
  center m1 = Some c1 -> center m2 = Some c2 ->
  _generate_radii_data m1 = _generate_radii_data m2.
Proof.
  intros H1 H2.
  now rewrite (generate_radii_data_center m1 c1 H1),
    (generate_radii_data_center m2 c2 H2).
Qed.


End ProcessorSessions.

(** ** Capturing, saving and loading *)

Section CaptureFacts.

Import Py Struct Data Spec Layout Sessions Capture.
Local Open Scope Z_scope.
Local Open Scope py_scope.

Context `{cv : FrameProcessor.OpenCV}.
Variable float_bits : Q -> float64.


Lemma generated_radii_fit (m : Measurements Q) :
  u32 (len (FrameProcessor._generate_radii_data m)) /\
  Forall u16 (FrameProcessor._generate_radii_data m).
Proof.
  split.
  - rewrite generate_radii_data_len. unfold u32. destruct (center m); lia.
  - eapply Forall_impl; [|apply generated_radii_range].
    cbv beta. unfold u16. intros r Hr. lia.
Qed.

Lemma capture_scan_inv self now :
  match fst (FrameProcessor.extract_scan_data (frame_processor self) now
               (current_frame self)) with
  | Ok (Some sd) =>
      capture_scan self now
      = (Ok (Some sd),
         mkApp (current_frame self) (Some sd)
           (snd (FrameProcessor.extract_scan_data (frame_processor self) now
                   (current_frame self))))
  | Ok None => capture_scan self now = (Ok None, self)
  | Raise e => False
  end.
Proof.
  pose proof (extract_scan_data_cases (frame_processor self) now
                (current_frame self)) as [Hnr Hnone].
  unfold capture_scan.
  destruct (current_frame self) as [f|] eqn:Hf.
  - destruct (FrameProcessor.extract_scan_data (frame_processor self) now
                (Some f)) as [r fp] eqn:E.
    cbn [fst snd] in *. destruct r as [[sd|]|e].
    + reflexivity.
    + assert (Hfp : fp = frame_processor self).
      { pose proof (extract_state (frame_processor self) now (Some f)) as Hs.
        rewrite E in Hs. cbn [snd] in Hs. rewrite Hs.
        rewrite process_frame_spec.
        destruct Hnone as [Hd _]. rewrite (Hd eq_refl). reflexivity. }
      rewrite Hfp, <- Hf. destruct self; reflexivity.
    + exact (Hnr e eq_refl).
  - reflexivity.
Qed.

(** Property X17.  [capture_scan] never raises, and a capture that returns
    [None] leaves the application as it was: the scan kept from an earlier
    capture stays, and [generate_oma_file] does with it what it did
    before. *)
Theorem failed_capture_changes_nothing self now :
  (forall e, fst (capture_scan self now) <> Raise e) /\
  (fst (capture_scan self now) = Ok None ->
   snd (capture_scan self now) = self /\
   forall writable,
     generate_oma_file float_bits (snd (capture_scan self now)) writable now
     = generate_oma_file float_bits self writable now).
Proof.
  pose proof (capture_scan_inv self now) as H.
  destruct (fst (FrameProcessor.extract_scan_data _ _ _)) as [[sd|]|e];
    [| |contradiction]; rewrite H; cbn [fst snd].
  - split; [discriminate|discriminate].
  - split; [discriminate|]. intros _. split; reflexivity.
Qed.

(** Property X16.  A scan returned by [capture_scan], when its timestamp is
    a text that fits and its width, height, center and doubles fit their
    fields, is saved by [generate_oma_file] if the file is writable, and
    nothing is saved if it is not; [read_oma_file] reads from the saved
    content the same timestamp, the same profile, version 1, the device
    text, and the measurements with (0, 0) for a missing center. *)
Theorem capture_save_load self now sd self' now' :
  capture_scan self now = (Ok (Some sd), self') ->
  Forall Utf8.scalar now -> u32 (utf8_len now) ->
  measurements_ok
    (get (OMAGenerator.measurements (generator_view float_bits sd))
       no_measurements) ->
  exists content,
    (forall writable,
       generate_oma_file float_bits self' writable now'
       = if writable then Some content else None) /\
    OMAGenerator.read_oma_file (Some content)
    = Some (OMAGenerator.mkOMAContent 1 now OMAGenerator.device_info
              (written_measurements (generator_view float_bits sd))
              (FrameProcessor.radii sd)).
Proof.
  intros Hcap Hnow Hlen Hm.
  pose proof (capture_scan_inv self now) as H.
  destruct (fst (FrameProcessor.extract_scan_data _ _ _)) as [[sd0|]|e] eqn:E;
    [| |contradiction]; rewrite H in Hcap; inversion Hcap; subst; clear Hcap.
  destruct (extract_Some_inv _ _ _ _ E) as (f & _ & _ & Hts & _ & _ & Hr & _).
  unfold generate_oma_file. cbn [scan_data].
  destruct (generated_radii_fit (FrameProcessor.measurements sd))
    as [Hrl Hrs].
  rewrite <- Hr in Hrl, Hrs.
  assert (Hfit : fits now' (generator_view float_bits sd)).
  { unfold fits, written_timestamp, written_radii, generator_view.
    cbn [OMAGenerator.timestamp OMAGenerator.measurements OMAGenerator.radii
         get].
    rewrite Hts. unfold measurements_ok, generator_view in Hm.
    cbn [OMAGenerator.measurements get] in Hm.
    destruct Hm as (Hw & Hh & Hcx & Hcy & _).
    cbv zeta. auto 10. }
  destruct (fits_build_parse now' _ Hfit) as (content & Hb & Hp).
  exists content. unfold OMAGenerator.create_oma_file. rewrite Hb.
  split; [intros writable; reflexivity|].
  unfold OMAGenerator.read_oma_file.
  rewrite <- (app_nil_r content), Hp.
  - unfold written_timestamp, written_radii, generator_view.
    cbn [OMAGenerator.timestamp OMAGenerator.radii get]. now rewrite Hts.
  - unfold floats_ok. unfold measurements_ok in Hm. tauto.
Qed.


End CaptureFacts.

(** ** The further properties on sample data *)

Section FurtherSamples.

Import Py Struct Data Spec Layout Sessions Samples MoreSamples.
Local Open Scope Z_scope.

Lemma build_size_witness :
  len sample_content
  = 80 + utf8_len (written_timestamp [] sample_scan)
    + 2 * len (written_radii sample_scan).
Proof.
  apply (build_size [] sample_scan sample_content). vm_compute. reflexivity.
Defined.

Lemma build_raises_witness :
  ((struct_error = UnicodeEncodeError /\
    ~ Forall Utf8.scalar (written_timestamp [] scan_bad_radius))
   \/ struct_error = struct_error) /\
  forall writable,
    OMAGenerator.create_oma_file writable [] scan_bad_radius = None.
Proof.
  apply (build_raises [] scan_bad_radius struct_error).
  vm_compute. reflexivity.
Defined.

(** A dictionary without any key and one with every default spelled out are
    built into the same file. *)
Lemma build_injective_witness :
  written_timestamp stamp scan_empty = written_timestamp [] scan_defaults /\
  written_measurements scan_empty = written_measurements scan_defaults /\
  written_radii scan_empty = written_radii scan_defaults.
Proof.
  apply (build_injective stamp scan_empty [] scan_defaults content_defaults).
  - unfold floats_ok, float64_ok. cbn. lia.
  - unfold floats_ok, float64_ok. cbn. lia.
  - vm_compute. reflexivity.
  - vm_compute. reflexivity.
Defined.

Lemma parsed_record_wellformed_witness :
  u32 (OMAGenerator.oma_version sample_record) /\
  Forall Utf8.scalar (OMAGenerator.oma_timestamp sample_record) /\
  Forall Utf8.scalar (OMAGenerator.oma_device_info sample_record) /\
  utf8_len (OMAGenerator.oma_timestamp sample_record)
  = declared_timestamp_len sample_content /\
  utf8_len (OMAGenerator.oma_device_info sample_record)
  = declared_device_len sample_content /\
  len (OMAGenerator.oma_radii sample_record)
  = declared_num_radii sample_content /\
  Forall u16 (OMAGenerator.oma_radii sample_record) /\
  (exists w h a cx cy p,
     OMAGenerator.oma_measurements sample_record
     = mkMeasurements (Some w) (Some h) (Some a) (Some (cx, cy)) (Some p) /\
     u32 w /\ u32 h /\ u32 cx /\ u32 cy /\ float64_ok a /\ float64_ok p) /\
  declared_size sample_content <= len sample_content.
Proof.
  apply (parsed_record_wellformed sample_content sample_record).
  vm_compute. reflexivity.
Defined.

Lemma reencode_parsed_witness :
  OMAGenerator._build_oma_content [] (scan_of_content sample_record)
  = Ok (take (declared_size sample_content) sample_content).
Proof.
  apply (reencode_parsed [] sample_content sample_record).
  - vm_compute. reflexivity.
  - reflexivity.
  - reflexivity.
Defined.

Lemma parse_needs_declared_size_witness :
  OMAGenerator._parse_oma_content
    (take (declared_size (sample_content ++ png_content))
       (sample_content ++ png_content))
  = Ok sample_record /\
  forall k, k < declared_size (sample_content ++ png_content) ->
    exists e,
      OMAGenerator._parse_oma_content
        (take k (sample_content ++ png_content)) = Raise e.
Proof.
  apply (parse_needs_declared_size (sample_content ++ png_content)
           sample_record).
  vm_compute. reflexivity.
Defined.

Lemma file_roundtrip_witness :
  match OMAGenerator.create_oma_file true [] sample_scan with
  | Some content =>
      true = true /\ fits [] sample_scan /\
      OMAGenerator.read_oma_file (Some content)
      = Some (OMAGenerator.mkOMAContent 1 (written_timestamp [] sample_scan)
                OMAGenerator.device_info (written_measurements sample_scan)
                (written_radii sample_scan))
  | None => true = false \/ ~ fits [] sample_scan
  end.
Proof.
  apply (file_roundtrip true [] sample_scan).
  unfold floats_ok, float64_ok. cbn. lia.
Defined.

Lemma extract_measures_largest_witness :
  FrameProcessor.timestamp captured = stamp /\
  FrameProcessor.contours captured
  = detected (cv := drawing) frame_with_outline /\
  FrameProcessor.frame_shape captured
  = FrameProcessor.shape (OpenCV := drawing) frame_with_outline /\
  FrameProcessor.radii captured
  = FrameProcessor._generate_radii_data
      (FrameProcessor.measurements captured) /\
  exists main,
    In main (detected (cv := drawing) frame_with_outline) /\
    (forall c, In c (detected (cv := drawing) frame_with_outline) ->
       (FrameProcessor.contourArea (OpenCV := drawing) c
        <= FrameProcessor.contourArea (OpenCV := drawing) main)%Q) /\
    (1000 < FrameProcessor.contourArea (OpenCV := drawing) main)%Q /\
    width (FrameProcessor.measurements captured)
    = Some (snd (fst (FrameProcessor.boundingRect (OpenCV := drawing) main)))
    /\
    height (FrameProcessor.measurements captured)
    = Some (snd (FrameProcessor.boundingRect (OpenCV := drawing) main)) /\
    area (FrameProcessor.measurements captured)
    = Some (FrameProcessor.contourArea (OpenCV := drawing) main) /\
    perimeter (FrameProcessor.measurements captured)
    = Some (FrameProcessor.arcLength (OpenCV := drawing) main true) /\
    center (FrameProcessor.measurements captured)
    = if Qeq_bool
           (FrameProcessor.m00
              (FrameProcessor.moments (OpenCV := drawing) main)) 0
      then None
      else Some (FrameProcessor.int_of_float
                   (FrameProcessor.m10
                      (FrameProcessor.moments (OpenCV := drawing) main)
                    / FrameProcessor.m00
                        (FrameProcessor.moments (OpenCV := drawing) main)),
                 FrameProcessor.int_of_float
                   (FrameProcessor.m01
                      (FrameProcessor.moments (OpenCV := drawing) main)
                    / FrameProcessor.m00
                        (FrameProcessor.moments (OpenCV := drawing) main))).
Proof.
  apply (extract_measures_largest (cv := drawing)
           (FrameProcessor.__init__ (cv := drawing)) stamp
           frame_with_outline captured).
  reflexivity.
Defined.

Lemma extract_profile_length_witness :
  len (FrameProcessor.radii captured)
  = match center (FrameProcessor.measurements captured) with
    | Some _ => 1000
    | None => 0
    end.
Proof.
  apply (extract_profile_length (cv := drawing)
           (FrameProcessor.__init__ (cv := drawing)) stamp
           frame_with_outline captured).
  reflexivity.
Defined.

Lemma profile_ignores_measurement_witness :
  FrameProcessor._generate_radii_data measured
  = FrameProcessor._generate_radii_data measured_elsewhere.
Proof.
  apply (profile_ignores_measurement measured measured_elsewhere
           (875, 225) (9, 9)); reflexivity.
Defined.

Lemma capture_save_load_witness :
  exists content,
    (forall writable,
       Capture.generate_oma_file (cv := drawing) Binary64.bits app_with_scan
         writable []
       = if writable then Some content else None) /\
    OMAGenerator.read_oma_file (Some content)
    = Some (OMAGenerator.mkOMAContent 1 stamp OMAGenerator.device_info
              (written_measurements
                 (Capture.generator_view (cv := drawing) Binary64.bits
                    captured))
              (FrameProcessor.radii captured)).
Proof.
  apply (capture_save_load (cv := drawing) Binary64.bits app_with_frame stamp
           captured app_with_scan []).
  - reflexivity.
  - repeat constructor; unfold Utf8.scalar; lia.
  - unfold u32. vm_compute. split; [discriminate|reflexivity].
  - unfold Capture.generator_view, captured.
    cbn [FrameProcessor.measurements OMAGenerator.measurements get].
    unfold measurements_ok, u32, float64_ok, measured.
    cbn [width height area center perimeter get option_map fst snd].
    vm_compute. repeat split; discriminate.
Defined.

Lemma failed_capture_changes_nothing_witness :
  snd (Capture.capture_scan (cv := drawing) app_with_speck stamp)
  = app_with_speck /\
  forall writable,
    Capture.generate_oma_file (cv := drawing) Binary64.bits
      (snd (Capture.capture_scan (cv := drawing) app_with_speck stamp))
      writable stamp
    = Capture.generate_oma_file (cv := drawing) Binary64.bits app_with_speck
        writable stamp.
Proof.
  apply (failed_capture_changes_nothing (cv := drawing) Binary64.bits
           app_with_speck stamp).
  reflexivity.
Defined.

End FurtherSamples.

(** ** The records the parser returns *)

Section ParserRange.

Import Py Struct Data OMAGenerator Spec Layout.
Local Open Scope Z_scope.

(** Property X18.  Every well-formed record is what the parser returns for
    some buffer, whatever its version and its device text: the parser checks
    the marker and the sizes, and neither the version nor the device. *)
Theorem wellformed_record_is_parsed version ts dev w h a cx cy p rs :
  u32 version ->
  Forall Utf8.scalar ts -> u32 (utf8_len ts) ->
  Forall Utf8.scalar dev -> u32 (utf8_len dev) ->
  u32 w -> u32 h -> u32 cx -> u32 cy -> float64_ok a -> float64_ok p ->
  u32 (len rs) -> Forall u16 rs ->
  exists content,
    _parse_oma_content content
    = Ok (mkOMAContent version ts dev
            (mkMeasurements (Some w) (Some h) (Some a) (Some (cx, cy))
               (Some p))
            rs) /\
    len content = 52 + utf8_len ts + utf8_len dev + 2 * len rs.
Proof.
  intros Hv Hts Htl Hdev Hdl Hw Hh Hcx Hcy Ha Hp Hn Hrs.
  destruct (utf8_decode_encode ts Hts) as (tb & Et & Dt).
  destruct (utf8_decode_encode dev Hdev) as (db & Ed & Dd).
  destruct (pack_nH_Ok rs Hrs) as (rb & Er).
  destruct (pack_nH_inv _ _ Er) as (_ & Lrb & Drb).
  rewrite <- (encode_utf8_len _ _ Et) in *.
  rewrite <- (encode_utf8_len _ _ Ed) in *.
  exists (image_of version tb db rb (len rs) w h cx cy a p). split.
  - rewrite <- (app_nil_r (image_of _ _ _ _ _ _ _ _ _ _ _)).
    rewrite (parse_image_of version tb db rb (len rs) w h cx cy a p ts dev);
      try assumption.
    now rewrite Drb.
  - unfold image_of, pack_2d.
    repeat rewrite len_app. repeat rewrite len_le_bytes.
    change (len magic) with 4. lia.
Qed.

Lemma wellformed_record_is_parsed_witness :
  exists content,
    _parse_oma_content content
    = Ok (mkOMAContent 7 MoreSamples.stamp (str_of_string "Excelon")
            (mkMeasurements (Some 1552) (Some 51) (Some float64_zero)
               (Some (776, 25)) (Some float64_zero))
            [1500; 2700]) /\
    len content
    = 52 + utf8_len MoreSamples.stamp + utf8_len (str_of_string "Excelon")
      + 2 * len [1500; 2700].
Proof.
  apply (wellformed_record_is_parsed 7 MoreSamples.stamp
           (str_of_string "Excelon") 1552 51 float64_zero 776 25
           float64_zero [1500; 2700]).
  all: try (unfold u32; vm_compute; split; [discriminate|reflexivity]).
  all: try (unfold float64_ok; cbn; lia).
  all: repeat constructor; unfold Utf8.scalar, u16; lia.
Defined.

End ParserRange.
